(** * ATDev_INA220: a shallow embedding of the INA220 current/power monitor driver

    The driver ([ATDev_INA220.cpp]) talks to the chip through the Adafruit
    BusIO register objects.  Every register access is an interaction with
    the outside world, so a member function is embedded as a small program
    over bus operations ([Bus]); the object's fields are threaded through
    explicitly as a record ([INA220]).  Running a program against a
    transport yields the result, the final transport state and the list of
    transactions that took place, with the answers that were received. *)

From Stdlib Require Import ZArith List Bool Lia SpecFloat.
Import ListNotations.
Local Open Scope Z_scope.

(** ** Fixed-width integers *)

(** Value kept by a [uint16_t]. *)
Definition u16 (z : Z) : Z := z mod 65536.

(** Conversion to [int16_t] (two's complement wrap-around). *)
Definition to_int16 (z : Z) : Z :=
  let w := z mod 65536 in if w <? 32768 then w else w - 65536.

(** [forall_pos n f] checks [f] on every positive below [2^(n+1)]. *)
Fixpoint forall_pos (n : nat) (f : positive -> bool) : bool :=
  f xH &&
  match n with
  | O => true
  | S n' =>
      forall_pos n' (fun q => f (xO q)) && forall_pos n' (fun q => f (xI q))
  end.

(** ** Single-precision floating point

    [float] is IEEE 754 binary32: 24 bits of precision, infinities at
    exponent 128, round to nearest even.  The operations are those of the
    standard library's executable specification of IEEE arithmetic. *)
Module F32.

Definition prec : Z := 24.
Definition emax : Z := 128.

Definition t : Type := spec_float.

Definition zero : t := S754_zero false.

(** Conversion of an integer to [float]. *)
Definition of_Z (z : Z) : t := binary_normalize prec emax z 0 false.

Definition div (x y : t) : t := SFdiv prec emax x y.
Definition mul (x y : t) : t := SFmul prec emax x y.

(** The literal [num/den] written in decimal with suffix [f], e.g.
    [6.4f] is [lit 64 10]: the correctly rounded quotient of two integers
    that are themselves exact in binary32. *)
Definition lit (num den : Z) : t := div (of_Z num) (of_Z den).

Definition valid (x : t) : bool := valid_binary prec emax x.

Definition is_zero (x : t) : bool :=
  match x with S754_zero _ => true | _ => false end.

Definition is_finite (x : t) : bool :=
  match x with S754_zero _ | S754_finite _ _ _ => true | _ => false end.

(** [x] is a well-formed positive binary32 whose distance to the rational
    [num/den] is at most half a unit in its last place. *)
Definition rounds (num den : Z) (x : t) : bool :=
  match x with
  | S754_finite false m e =>
      let p := 2 ^ Z.max e 0 in
      let n := 2 ^ Z.max (- e) 0 in
      valid x && (0 <? den) &&
      (2 * Z.abs (den * Z.pos m * p - num * n) <=? den * p)
  | _ => false
  end.

(** [x] is a well-formed positive binary32 equal to the rational [num/den]. *)
Definition exactly (num den : Z) (x : t) : bool :=
  match x with
  | S754_finite false m e =>
      valid x && (0 <? den) &&
      (den * Z.pos m * 2 ^ Z.max e 0 =? num * 2 ^ Z.max (- e) 0)
  | _ => false
  end.

End F32.

(** ** Bus programs *)

(** The three things the driver asks of the BusIO layer. *)
Inductive bus_op : Type :=
| OpProbe (addr : Z)          (* Adafruit_I2CDevice::begin() on the device at [addr] *)
| OpWrite (reg value : Z)     (* Adafruit_BusIO_Register(reg, 2, MSBFIRST).write(value, 2) *)
| OpRead  (reg : Z).          (* Adafruit_BusIO_Register(reg, 2, MSBFIRST).read(&value) *)

(** What comes back: the boolean the call returns and, for a read, the word
    found in [value] afterwards (when the read fails this is whatever the
    uninitialised local happened to hold). *)
Record bus_reply : Type := { reply_ok : bool; reply_data : Z }.

Inductive Bus (A : Type) : Type :=
| Ret (a : A)
| Op (o : bus_op) (k : bus_reply -> Bus A).
Arguments Ret {A} a.
Arguments Op {A} o k.

Fixpoint bind {A B : Type} (p : Bus A) (f : A -> Bus B) : Bus B :=
  match p with
  | Ret a => f a
  | Op o k => Op o (fun r => bind (k r) f)
  end.

Notation "x <- p ;; q" := (bind p (fun x => q))
  (at level 61, p at next level, right associativity).
Notation "p ;;; q" := (bind p (fun _ => q))
  (at level 61, right associativity).

(** [reg.write(value, 2)]: the returned boolean. *)
Definition write16 (reg value : Z) : Bus bool :=
  Op (OpWrite reg value) (fun r => Ret (reply_ok r)).

(** [reg.read(&value)] into a [uint16_t]: the returned boolean and [value]. *)
Definition read16 (reg : Z) : Bus (bool * Z) :=
  Op (OpRead reg) (fun r => Ret (reply_ok r, u16 (reply_data r))).

(** A transport answers every operation and may change while doing so. *)
Record Transport : Type := {
  t_state : Type;
  t_step : bus_op -> t_state -> bus_reply * t_state
}.

Definition trace : Type := list (bus_op * bus_reply).

Fixpoint run {A : Type} (T : Transport) (p : Bus A) (s : t_state T)
  : A * t_state T * trace :=
  match p with
  | Ret a => (a, s, [])
  | Op o k =>
      let (r, s1) := t_step T o s in
      let '(a, s2, tr) := run T (k r) s1 in
      (a, s2, (o, r) :: tr)
  end.

Definition result {A : Type} (T : Transport) (p : Bus A) (s : t_state T) : A :=
  fst (fst (run T p s)).

Definition final_state {A : Type} (T : Transport) (p : Bus A) (s : t_state T)
  : t_state T :=
  snd (fst (run T p s)).

Definition transactions {A : Type} (T : Transport) (p : Bus A) (s : t_state T)
  : trace :=
  snd (run T p s).

(** The operations issued, in order. *)
Definition issued (tr : trace) : list bus_op := map fst tr.

(** The answer to the last transaction of a trace. *)
Definition last_reply (tr : trace) : bus_reply :=
  snd (last tr (OpProbe 0, {| reply_ok := false; reply_data := 0 |})).

(** *** Two transport doubles *)

(** A scripted transport answers from a list, whatever is asked; once the
    list is exhausted every call fails. *)
Definition scripted : Transport := {|
  t_state := list bus_reply;
  t_step := fun _ s =>
    match s with
    | [] => ({| reply_ok := false; reply_data := 0 |}, [])
    | r :: s' => (r, s')
    end
|}.

(** A register file that acknowledges everything: a write stores the low
    sixteen bits of the payload, a read returns what is stored. *)
Definition echo_device : Transport := {|
  t_state := Z -> Z;
  t_step := fun o regs =>
    match o with
    | OpProbe _ => ({| reply_ok := true; reply_data := 0 |}, regs)
    | OpWrite reg v =>
        ({| reply_ok := true; reply_data := 0 |},
         fun r => if r =? reg then u16 v else regs r)
    | OpRead reg => ({| reply_ok := true; reply_data := regs reg |}, regs)
    end
|}.

(** ** The register map and the configuration encodings *)

(** Modelled from the spec: the header [ATDev_INA220.h], which defines the
    register addresses, is not among the sources; the addresses are those of
    the register map of §6. *)
Definition INA220_REG_CONFIG : Z := 0x00.
Definition INA220_REG_SHUNTVOLTAGE : Z := 0x01.
Definition INA220_REG_BUSVOLTAGE : Z := 0x02.
Definition INA220_REG_POWER : Z := 0x03.
Definition INA220_REG_CURRENT : Z := 0x04.
Definition INA220_REG_CALIBRATION : Z := 0x05.

(** The encodings of the configuration fields come from the same header and
    are given nowhere else, so the driver is parameterised by them. *)
Record config_encoding : Type := {
  INA220_CONFIG_BVOLTAGERANGE_16V : Z;
  INA220_CONFIG_BVOLTAGERANGE_32V : Z;
  INA220_CONFIG_GAIN_1_40MV : Z;
  INA220_CONFIG_GAIN_8_320MV : Z;
  INA220_CONFIG_BADCRES_12BIT : Z;
  INA220_CONFIG_SADCRES_12BIT_1S_532US : Z;
  INA220_CONFIG_MODE_POWERDOWN : Z;
  INA220_CONFIG_MODE_SANDBVOLT_CONTINUOUS : Z
}.

(** One instance, used for concrete runs: the field layout of the chip's
    configuration register (BRNG bit 13, PG bits 12-11, BADC bits 10-7,
    SADC bits 6-3, MODE bits 2-0). *)
Definition datasheet_encoding : config_encoding := {|
  INA220_CONFIG_BVOLTAGERANGE_16V := 0x0000;
  INA220_CONFIG_BVOLTAGERANGE_32V := 0x2000;
  INA220_CONFIG_GAIN_1_40MV := 0x0000;
  INA220_CONFIG_GAIN_8_320MV := 0x1800;
  INA220_CONFIG_BADCRES_12BIT := 0x0180;
  INA220_CONFIG_SADCRES_12BIT_1S_532US := 0x0018;
  INA220_CONFIG_MODE_POWERDOWN := 0x00;
  INA220_CONFIG_MODE_SANDBVOLT_CONTINUOUS := 0x07
|}.

(** Modelled from the spec: [Adafruit_BusIO_RegisterBits::write] belongs to
    the BusIO library, which is not among the sources.  Following §4.1, a
    bit-slice write of [data] into the [bits]-wide field at [shift] masks
    [data] to the field width, shifts it into position and writes the whole
    register, without reading the register first. *)
Definition RegisterBits_write (reg bits shift data : Z) : Bus bool :=
  write16 reg (Z.shiftl (Z.land data (Z.ones bits)) shift).

(** ** The controller object *)

(** Modelled from the spec: the class declaration is in the missing header;
    following §3 the calibration value is an integer and the two conversion
    scalars are floats.  [i2c_dev] records whether the device handle has
    been allocated. *)
Record INA220 : Type := {
  INA220_i2caddr : Z;
  i2c_dev : bool;
  INA220_calValue : Z;
  INA220_currentDivider_mA : F32.t;
  INA220_powerMultiplier_mW : F32.t;
  _success : bool
}.

Definition set_i2c_dev (b : bool) (self : INA220) : INA220 :=
  {| INA220_i2caddr := INA220_i2caddr self;
     i2c_dev := b;
     INA220_calValue := INA220_calValue self;
     INA220_currentDivider_mA := INA220_currentDivider_mA self;
     INA220_powerMultiplier_mW := INA220_powerMultiplier_mW self;
     _success := _success self |}.

Definition set_calValue (v : Z) (self : INA220) : INA220 :=
  {| INA220_i2caddr := INA220_i2caddr self;
     i2c_dev := i2c_dev self;
     INA220_calValue := v;
     INA220_currentDivider_mA := INA220_currentDivider_mA self;
     INA220_powerMultiplier_mW := INA220_powerMultiplier_mW self;
     _success := _success self |}.

Definition set_currentDivider_mA (d : F32.t) (self : INA220) : INA220 :=
  {| INA220_i2caddr := INA220_i2caddr self;
     i2c_dev := i2c_dev self;
     INA220_calValue := INA220_calValue self;
     INA220_currentDivider_mA := d;
     INA220_powerMultiplier_mW := INA220_powerMultiplier_mW self;
     _success := _success self |}.

Definition set_powerMultiplier_mW (m : F32.t) (self : INA220) : INA220 :=
  {| INA220_i2caddr := INA220_i2caddr self;
     i2c_dev := i2c_dev self;
     INA220_calValue := INA220_calValue self;
     INA220_currentDivider_mA := INA220_currentDivider_mA self;
     INA220_powerMultiplier_mW := m;
     _success := _success self |}.

Definition set_success (b : bool) (self : INA220) : INA220 :=
  {| INA220_i2caddr := INA220_i2caddr self;
     i2c_dev := i2c_dev self;
     INA220_calValue := INA220_calValue self;
     INA220_currentDivider_mA := INA220_currentDivider_mA self;
     INA220_powerMultiplier_mW := INA220_powerMultiplier_mW self;
     _success := b |}.

(** The constructor runs over raw storage [mem]: it assigns the address and
    the two scalars and leaves the other members as it found them. *)
Definition ATDev_INA220 (mem : INA220) (addr : Z) : INA220 :=
  {| INA220_i2caddr := addr mod 256;
     i2c_dev := i2c_dev mem;
     INA220_calValue := INA220_calValue mem;
     INA220_currentDivider_mA := F32.of_Z 0;
     INA220_powerMultiplier_mW := F32.zero;
     _success := _success mem |}.

Definition success (self : INA220) : bool := _success self.

Section Driver.

Variable hdr : config_encoding.

Definition setCalibration_ATDev_32V_2A (self : INA220) : Bus INA220 :=
  let self := set_calValue 32000 self in
  let self := set_currentDivider_mA (F32.lit 3125 1000) self in
  let self := set_powerMultiplier_mW (F32.lit 64 10) self in
  write16 INA220_REG_CALIBRATION (INA220_calValue self) ;;;
  let config :=
    u16 (Z.lor (Z.lor (Z.lor (Z.lor
           (INA220_CONFIG_BVOLTAGERANGE_32V hdr)
           (INA220_CONFIG_GAIN_1_40MV hdr))
           (INA220_CONFIG_BADCRES_12BIT hdr))
           (INA220_CONFIG_SADCRES_12BIT_1S_532US hdr))
           (INA220_CONFIG_MODE_SANDBVOLT_CONTINUOUS hdr)) in
  ok <- write16 INA220_REG_CONFIG config ;;
  Ret (set_success ok self).

Definition init (self : INA220) : Bus INA220 :=
  setCalibration_ATDev_32V_2A self.

Definition begin (self : INA220) : Bus (bool * INA220) :=
  let self := if i2c_dev self then self else set_i2c_dev true self in
  Op (OpProbe (INA220_i2caddr self)) (fun r =>
    if negb (reply_ok r) then Ret (false, self)
    else self <- init self ;; Ret (true, self)).

Definition getBusVoltage_raw (self : INA220) : Bus (Z * INA220) :=
  r <- read16 INA220_REG_BUSVOLTAGE ;;
  let self := set_success (fst r) self in
  Ret (to_int16 (Z.shiftr (snd r) 3 * 4), self).

Definition getShuntVoltage_raw (self : INA220) : Bus (Z * INA220) :=
  r <- read16 INA220_REG_SHUNTVOLTAGE ;;
  let self := set_success (fst r) self in
  Ret (to_int16 (snd r), self).

Definition getCurrent_raw (self : INA220) : Bus (Z * INA220) :=
  write16 INA220_REG_CALIBRATION (INA220_calValue self) ;;;
  r <- read16 INA220_REG_CURRENT ;;
  let self := set_success (fst r) self in
  Ret (to_int16 (snd r), self).

Definition getPower_raw (self : INA220) : Bus (Z * INA220) :=
  write16 INA220_REG_CALIBRATION (INA220_calValue self) ;;;
  r <- read16 INA220_REG_POWER ;;
  let self := set_success (fst r) self in
  Ret (to_int16 (snd r), self).

Definition getCurrent_mA (self : INA220) : Bus (F32.t * INA220) :=
  r <- getCurrent_raw self ;;
  let valueDec := F32.of_Z (fst r) in
  let valueDec := F32.div valueDec (INA220_currentDivider_mA (snd r)) in
  Ret (valueDec, snd r).

Definition getPower_mW (self : INA220) : Bus (F32.t * INA220) :=
  r <- getPower_raw self ;;
  let valueDec := F32.of_Z (fst r) in
  let valueDec := F32.mul valueDec (INA220_powerMultiplier_mW (snd r)) in
  Ret (valueDec, snd r).

Definition setCalibration_32V_2A (self : INA220) : Bus INA220 :=
  let self := set_calValue 4096 self in
  let self := set_currentDivider_mA (F32.of_Z 10) self in
  let self := set_powerMultiplier_mW (F32.of_Z 2) self in
  write16 INA220_REG_CALIBRATION (INA220_calValue self) ;;;
  let config :=
    u16 (Z.lor (Z.lor (Z.lor (Z.lor
           (INA220_CONFIG_BVOLTAGERANGE_32V hdr)
           (INA220_CONFIG_GAIN_8_320MV hdr))
           (INA220_CONFIG_BADCRES_12BIT hdr))
           (INA220_CONFIG_SADCRES_12BIT_1S_532US hdr))
           (INA220_CONFIG_MODE_SANDBVOLT_CONTINUOUS hdr)) in
  ok <- write16 INA220_REG_CONFIG config ;;
  Ret (set_success ok self).

Definition powerSave (on : bool) (self : INA220) : Bus INA220 :=
  ok <- (if on
         then RegisterBits_write INA220_REG_CONFIG 3 0
                (INA220_CONFIG_MODE_POWERDOWN hdr)
         else RegisterBits_write INA220_REG_CONFIG 3 0
                (INA220_CONFIG_MODE_SANDBVOLT_CONTINUOUS hdr)) ;;
  Ret (set_success ok self).

Definition setCalibration_32V_1A (self : INA220) : Bus INA220 :=
  let self := set_calValue 10240 self in
  let self := set_currentDivider_mA (F32.of_Z 25) self in
  let self := set_powerMultiplier_mW (F32.lit 8 10) self in
  write16 INA220_REG_CALIBRATION (INA220_calValue self) ;;;
  let config :=
    u16 (Z.lor (Z.lor (Z.lor (Z.lor
           (INA220_CONFIG_BVOLTAGERANGE_32V hdr)
           (INA220_CONFIG_GAIN_8_320MV hdr))
           (INA220_CONFIG_BADCRES_12BIT hdr))
           (INA220_CONFIG_SADCRES_12BIT_1S_532US hdr))
           (INA220_CONFIG_MODE_SANDBVOLT_CONTINUOUS hdr)) in
  ok <- write16 INA220_REG_CONFIG config ;;
  Ret (set_success ok self).

Definition setCalibration_16V_400mA (self : INA220) : Bus INA220 :=
  let self := set_calValue 8192 self in
  let self := set_currentDivider_mA (F32.of_Z 20) self in
  let self := set_powerMultiplier_mW (F32.lit 10 10) self in
  write16 INA220_REG_CALIBRATION (INA220_calValue self) ;;;
  let config :=
    u16 (Z.lor (Z.lor (Z.lor (Z.lor
           (INA220_CONFIG_BVOLTAGERANGE_16V hdr)
           (INA220_CONFIG_GAIN_1_40MV hdr))
           (INA220_CONFIG_BADCRES_12BIT hdr))
           (INA220_CONFIG_SADCRES_12BIT_1S_532US hdr))
           (INA220_CONFIG_MODE_SANDBVOLT_CONTINUOUS hdr)) in
  ok <- write16 INA220_REG_CONFIG config ;;
  Ret (set_success ok self).

(** The calibration-selection member functions the source file defines,
    in the order of their definitions. *)
Definition calibration_selectors : list (INA220 -> Bus INA220) :=
  [ setCalibration_ATDev_32V_2A;
    setCalibration_32V_2A;
    setCalibration_32V_1A;
    setCalibration_16V_400mA ].

End Driver.

(** ** Concrete inputs for runs *)

(** Zero-filled storage, as a statically allocated object has before its
    constructor runs. *)
Definition zero_storage : INA220 :=
  {| INA220_i2caddr := 0;
     i2c_dev := false;
     INA220_calValue := 0;
     INA220_currentDivider_mA := S754_zero false;
     INA220_powerMultiplier_mW := S754_zero false;
     _success := false |}.

Definition ack (v : Z) : bus_reply := {| reply_ok := true; reply_data := v |}.
Definition nack (v : Z) : bus_reply := {| reply_ok := false; reply_data := v |}.

(** The configuration word a profile composes from its range and gain. *)
Definition config_word (hdr : config_encoding) (range gain : Z) : Z :=
  u16 (Z.lor (Z.lor (Z.lor (Z.lor range gain)
         (INA220_CONFIG_BADCRES_12BIT hdr))
         (INA220_CONFIG_SADCRES_12BIT_1S_532US hdr))
         (INA220_CONFIG_MODE_SANDBVOLT_CONTINUOUS hdr)).

(** The object left behind by a member function that also returns a value. *)
Definition object_after {A : Type} (p : Bus (A * INA220)) : Bus INA220 :=
  r <- p ;; Ret (snd r).

(** ** Vocabulary of the properties *)

(** What selecting a profile amounts to: the three members are assigned,
    the calibration value and then the configuration word are written, and
    the outcome of the second write is kept. *)
Definition selects_profile (hdr : config_encoding) (op : INA220 -> Bus INA220)
    (cal : Z) (divider multiplier : F32.t) (range gain : Z) : Prop :=
  forall (T : Transport) (s : t_state T) (self : INA220),
    run T (op self) s =
      let w1 := OpWrite INA220_REG_CALIBRATION cal in
      let w2 := OpWrite INA220_REG_CONFIG (config_word hdr range gain) in
      let (r1, s1) := t_step T w1 s in
      let (r2, s2) := t_step T w2 s1 in
      (set_success (reply_ok r2)
         (set_powerMultiplier_mW multiplier
            (set_currentDivider_mA divider (set_calValue cal self))),
       s2, [(w1, r1); (w2, r2)]).

(** An operation made of two transactions whose success flag is the outcome
    of the second one, whatever the first one answered. *)
Definition reports_final_only (op : INA220 -> Bus INA220) : Prop :=
  forall (T : Transport) (s : t_state T) (self : INA220),
    exists (o1 o2 : bus_op) (r1 r2 : bus_reply),
      transactions T (op self) s = [(o1, r1); (o2, r2)]
      /\ success (result T (op self) s) = reply_ok r2.

(** The operations that perform more than one transaction. *)
Definition multi_step_operations (hdr : config_encoding)
  : list (INA220 -> Bus INA220) :=
  calibration_selectors hdr ++
  [ (fun self => object_after (getCurrent_raw self));
    (fun self => object_after (getPower_raw self)) ].

(** The row of the calibration table an object holds: the calibration
    value, and a current divisor and a power multiplier recognised by
    [divisor] and [multiplier] ([F32.exactly] for a decimal that binary32
    represents, [F32.rounds] for one it can only approximate). *)
Definition holds_row (self : INA220) (cal : Z)
    (divisor multiplier : F32.t -> bool) : Prop :=
  INA220_calValue self = cal
  /\ divisor (INA220_currentDivider_mA self) = true
  /\ multiplier (INA220_powerMultiplier_mW self) = true.

(** An operation that writes a row of the calibration table: it issues the
    calibration write and the configuration write, in that order, and
    leaves the row in the object. *)
Definition writes_row (hdr : config_encoding) (op : INA220 -> Bus INA220)
    (cal : Z) (divisor multiplier : F32.t -> bool) (range gain : Z) : Prop :=
  forall (T : Transport) (s : t_state T) (self : INA220),
    issued (transactions T (op self) s) =
      [OpWrite 0x05 cal; OpWrite 0x00 (config_word hdr range gain)]
    /\ holds_row (result T (op self) s) cal divisor multiplier.

(** The two injected-failure runs: only the first transaction fails, only
    the second one fails. *)
Definition collapses_errors (op : INA220 -> Bus INA220) : Prop :=
  forall (self : INA220) (v1 v2 : Z),
    success (result scripted (op self) [nack v1; ack v2]) = true
    /\ success (result scripted (op self) [ack v1; nack v2]) = false.

(** An operation whose stored constants and written words depend neither
    on the object it starts from nor on anything the transport answers. *)
Definition fixed_constants (op : INA220 -> Bus INA220) : Prop :=
  forall (T1 : Transport) (s1 : t_state T1) (self1 : INA220)
         (T2 : Transport) (s2 : t_state T2) (self2 : INA220),
    let a := result T1 (op self1) s1 in
    let b := result T2 (op self2) s2 in
    INA220_calValue a = INA220_calValue b
    /\ INA220_currentDivider_mA a = INA220_currentDivider_mA b
    /\ INA220_powerMultiplier_mW a = INA220_powerMultiplier_mW b
    /\ issued (transactions T1 (op self1) s1)
       = issued (transactions T2 (op self2) s2).

(** ** Double precision and the remaining conversions *)

(** [double] is IEEE 754 binary64 on most targets; avr-gcc makes it a
    binary32.  The two conversions below compute in [double], so they are
    parameterised by its format. *)
Record float_format : Type := { fmt_prec : Z; fmt_emax : Z }.

Definition binary64 : float_format := {| fmt_prec := 53; fmt_emax := 1024 |}.
Definition binary32 : float_format := {| fmt_prec := 24; fmt_emax := 128 |}.

Module Double.

(** Conversion of an integer to [double]. *)
Definition of_Z (fmt : float_format) (z : Z) : spec_float :=
  binary_normalize (fmt_prec fmt) (fmt_emax fmt) z 0 false.

Definition mul (fmt : float_format) (x y : spec_float) : spec_float :=
  SFmul (fmt_prec fmt) (fmt_emax fmt) x y.

(** The decimal literal [num/den] without suffix, e.g. [0.01] is
    [lit fmt 1 100]. *)
Definition lit (fmt : float_format) (num den : Z) : spec_float :=
  SFdiv (fmt_prec fmt) (fmt_emax fmt) (of_Z fmt num) (of_Z fmt den).

(** Conversion of a [double] to [float], as a [return] in a function
    returning [float] does it: round to nearest even. *)
Definition to_float (x : spec_float) : F32.t :=
  match x with
  | S754_finite sx m e => binary_round F32.prec F32.emax sx m e
  | _ => x
  end.

End Double.

Definition getShuntVoltage_mV (dbl : float_format) (self : INA220)
  : Bus (F32.t * INA220) :=
  r <- getShuntVoltage_raw self ;;
  let value := fst r in
  Ret (Double.to_float
         (Double.mul dbl (Double.of_Z dbl value) (Double.lit dbl 1 100)),
       snd r).

Definition getBusVoltage_V (dbl : float_format) (self : INA220)
  : Bus (F32.t * INA220) :=
  r <- getBusVoltage_raw self ;;
  let value := fst r in
  Ret (Double.to_float
         (Double.mul dbl (Double.of_Z dbl value) (Double.lit dbl 1 1000)),
       snd r).

(** ** Calls in sequence *)

(** The member functions that take a measurement, each reduced to the
    object it leaves. *)
Definition measurement_operations (dbl : float_format)
  : list (INA220 -> Bus INA220) :=
  [ (fun self => object_after (getBusVoltage_raw self));
    (fun self => object_after (getShuntVoltage_raw self));
    (fun self => object_after (getCurrent_raw self));
    (fun self => object_after (getPower_raw self));
    (fun self => object_after (getShuntVoltage_mV dbl self));
    (fun self => object_after (getBusVoltage_V dbl self));
    (fun self => object_after (getCurrent_mA self));
    (fun self => object_after (getPower_mW self)) ].

(** A caller invoking member functions one after the other on the same
    object. *)
Fixpoint call_in_turn (ops : list (INA220 -> Bus INA220)) (self : INA220)
  : Bus INA220 :=
  match ops with
  | [] => Ret self
  | op :: rest => self' <- op self ;; call_in_turn rest self'
  end.

(** ** Accuracy of a float *)

(** [x] is a well-formed binary32, zero or finite, with the sign of
    [num/den], at distance at most [k] half units in its last place from
    the rational [num/den] ([den] positive). *)
Definition within_half_ulps (k : Z) (num den : Z) (x : F32.t) : bool :=
  match x with
  | S754_zero _ => (0 <? den) && (num =? 0)
  | S754_finite sx m e =>
      let p := 2 ^ Z.max e 0 in
      let n := 2 ^ Z.max (- e) 0 in
      let sm := if sx then Z.neg m else Z.pos m in
      F32.valid x && (0 <? den) && Bool.eqb sx (num <? 0) &&
      (2 * Z.abs (den * sm * p - num * n) <=? k * den * p)
  | _ => false
  end.

(** [x] is a finite float below zero. *)
Definition is_negative (x : F32.t) : bool :=
  match x with S754_finite true _ _ => true | _ => false end.

(** [forall_int16_half f] checks [f] at 0, at -32768 and on the positive
    values of an [int16_t]. *)
Definition forall_int16_half (f : Z -> bool) : bool :=
  f 0 && f (-32768) && forall_pos 14 (fun p => f (Z.pos p)).

(** [forall_bus_raw f] checks [f] on every multiple of 4 from 0 to 32764,
    the values [getBusVoltage_raw] can return. *)
Definition forall_bus_raw (f : Z -> bool) : bool :=
  f 0 && forall_pos 12 (fun p => f (Z.pos p * 4)).

(** ** Vocabulary of the further properties *)

(** What a measurement may put on the bus for an object whose calibration
    value is [cal]: that value written to the calibration register, or a
    read. *)
Definition reassert_or_read (cal : Z) (o : bus_op) : Prop :=
  o = OpWrite INA220_REG_CALIBRATION cal \/ exists reg : Z, o = OpRead reg.

(** An operation that changes nothing in the object but the success flag
    and puts nothing on the bus but calibration reassertions and reads. *)
Definition only_measures (op : INA220 -> Bus INA220) : Prop :=
  forall (T : Transport) (s : t_state T) (self : INA220),
    (exists b : bool, result T (op self) s = set_success b self)
    /\ Forall (reassert_or_read (INA220_calValue self))
         (issued (transactions T (op self) s)).

(** An operation that leaves the bus address and the device handle alone. *)
Definition keeps_binding (op : INA220 -> Bus INA220) : Prop :=
  forall (T : Transport) (s : t_state T) (self : INA220),
    INA220_i2caddr (result T (op self) s) = INA220_i2caddr self
    /\ i2c_dev (result T (op self) s) = i2c_dev self.

(** Running [second] after [first] is running [second] alone. *)
Definition overrides (second first : INA220 -> Bus INA220) : Prop :=
  forall (T : Transport) (s : t_state T) (T' : Transport) (s' : t_state T')
         (self : INA220),
    run T' (second (result T (first self) s)) s' = run T' (second self) s'.

(** The calibration value each selection stores, in the order of
    [calibration_selectors]. *)
Definition calibration_values : list Z := [32000; 4096; 10240; 8192].

(** After [op], whatever the transport answered to it, the measurements
    [ops] only read and reassert [cal]. *)
Definition reasserted_after (ops : list (INA220 -> Bus INA220))
    (op : INA220 -> Bus INA220) (cal : Z) : Prop :=
  forall (T0 : Transport) (s0 : t_state T0) (self0 : INA220)
         (T : Transport) (s : t_state T),
    Forall (reassert_or_read cal)
      (issued (transactions T
                 (call_in_turn ops (result T0 (op self0) s0)) s)).

(** * Properties *)

(** ** Running programs *)

Lemma run_bind {A B : Type} (T : Transport) (p : Bus A) (f : A -> Bus B) :
  forall s : t_state T,
    run T (bind p f) s =
      let '(a, s1, tr1) := run T p s in
      let '(b, s2, tr2) := run T (f a) s1 in
      (b, s2, tr1 ++ tr2).
Proof.
  induction p as [a | o k IH]; intro s; cbn.
  - destruct (run T (f a) s) as [[b s2] tr2]; reflexivity.
  - destruct (t_step T o s) as [r s1].
    rewrite IH.
    destruct (run T (k r) s1) as [[a s2] tr1].
    destruct (run T (f a) s2) as [[b s3] tr2]; reflexivity.
Qed.

(** Names the answer of the transport at every transaction in the goal. *)
Ltac step_bus :=
  repeat match goal with
    | |- context [t_step ?T ?o ?s] =>
        let r := fresh "r" in
        let s' := fresh "s" in
        destruct (t_step T o s) as [r s'] eqn:?; cbn
    end.

(** ** Fixed-width arithmetic *)

Lemma u16_range (z : Z) : 0 <= u16 z < 65536.
Proof. unfold u16; apply Z.mod_pos_bound; lia. Qed.

Lemma u16_small (z : Z) : 0 <= z < 65536 -> u16 z = z.
Proof. intro H; unfold u16; apply Z.mod_small; exact H. Qed.

Lemma to_int16_range (z : Z) : -32768 <= to_int16 z <= 32767.
Proof.
  unfold to_int16.
  pose proof (Z.mod_pos_bound z 65536 ltac:(lia)) as H.
  destruct (z mod 65536 <? 32768) eqn:E.
  - apply Z.ltb_lt in E; lia.
  - apply Z.ltb_ge in E; lia.
Qed.

Lemma to_int16_small (z : Z) : 0 <= z < 32768 -> to_int16 z = z.
Proof.
  intro H; unfold to_int16.
  rewrite Z.mod_small by lia.
  destruct (z <? 32768) eqn:E; [reflexivity | apply Z.ltb_ge in E; lia].
Qed.

Lemma shiftr3_bound (v : Z) : 0 <= v < 65536 -> 0 <= Z.shiftr v 3 <= 8191.
Proof.
  intro H; rewrite Z.shiftr_div_pow2 by lia.
  change (2 ^ 3) with 8.
  pose proof (Z.div_pos v 8 ltac:(lia) ltac:(lia)).
  assert (v / 8 < 8192) by (apply Z.div_lt_upper_bound; lia).
  lia.
Qed.

(** What the bus-voltage computation yields on a sixteen-bit word. *)
Lemma bus_voltage_word (v : Z) :
  0 <= v < 65536 ->
  to_int16 (Z.shiftr v 3 * 4) = Z.shiftr v 3 * 4.
Proof.
  intro H; pose proof (shiftr3_bound v H).
  apply to_int16_small; lia.
Qed.

(** ** Raw reads *)

Lemma run_getBusVoltage_raw (T : Transport) (s : t_state T) (self : INA220) :
  run T (getBusVoltage_raw self) s =
    let (r, s1) := t_step T (OpRead INA220_REG_BUSVOLTAGE) s in
    (to_int16 (Z.shiftr (u16 (reply_data r)) 3 * 4),
     set_success (reply_ok r) self, s1,
     [(OpRead INA220_REG_BUSVOLTAGE, r)]).
Proof. cbn; step_bus; reflexivity. Qed.

Lemma run_getCurrent_raw (T : Transport) (s : t_state T) (self : INA220) :
  run T (getCurrent_raw self) s =
    let w := OpWrite INA220_REG_CALIBRATION (INA220_calValue self) in
    let (r1, s1) := t_step T w s in
    let (r2, s2) := t_step T (OpRead INA220_REG_CURRENT) s1 in
    (to_int16 (u16 (reply_data r2)), set_success (reply_ok r2) self, s2,
     [(w, r1); (OpRead INA220_REG_CURRENT, r2)]).
Proof. cbn; step_bus; reflexivity. Qed.

Lemma run_getPower_raw (T : Transport) (s : t_state T) (self : INA220) :
  run T (getPower_raw self) s =
    let w := OpWrite INA220_REG_CALIBRATION (INA220_calValue self) in
    let (r1, s1) := t_step T w s in
    let (r2, s2) := t_step T (OpRead INA220_REG_POWER) s1 in
    (to_int16 (u16 (reply_data r2)), set_success (reply_ok r2) self, s2,
     [(w, r1); (OpRead INA220_REG_POWER, r2)]).
Proof. cbn; step_bus; reflexivity. Qed.

(** C3: on every call, whatever the transport answers, [getCurrent_raw] and
    [getPower_raw] issue exactly two transactions: a write of the stored
    calibration value to the calibration register (0x05), then a read of
    the current register (0x04), respectively the power register (0x03). *)
Theorem raw_reads_reassert_calibration :
  forall (T : Transport) (s : t_state T) (self : INA220),
    issued (transactions T (getCurrent_raw self) s)
      = [OpWrite 0x05 (INA220_calValue self); OpRead 0x04]
    /\ issued (transactions T (getPower_raw self) s)
      = [OpWrite 0x05 (INA220_calValue self); OpRead 0x03].
Proof.
  intros T s self; unfold transactions.
  rewrite run_getCurrent_raw, run_getPower_raw; cbn.
  destruct (t_step T (OpWrite INA220_REG_CALIBRATION (INA220_calValue self)) s)
    as [r1 s1].
  destruct (t_step T (OpRead INA220_REG_CURRENT) s1) as [r2 s2].
  destruct (t_step T (OpRead INA220_REG_POWER) s1) as [r3 s3].
  split; reflexivity.
Qed.

(** C6: when the bus-voltage register read delivers the sixteen-bit word
    [v], [getBusVoltage_raw] returns [(v >> 3) * 4] converted to [int16_t];
    two words that agree on their upper thirteen bits give the same result,
    so the three status bits never show. *)
Theorem getBusVoltage_raw_drops_status_bits :
  forall (T : Transport) (s : t_state T) (self : INA220) (v : Z),
    0 <= v < 65536 ->
    reply_data (fst (t_step T (OpRead INA220_REG_BUSVOLTAGE) s)) = v ->
    fst (result T (getBusVoltage_raw self) s) = to_int16 (Z.shiftr v 3 * 4)
    /\ (forall (T' : Transport) (s' : t_state T') (self' : INA220) (v' : Z),
          0 <= v' < 65536 ->
          reply_data (fst (t_step T' (OpRead INA220_REG_BUSVOLTAGE) s')) = v' ->
          Z.shiftr v' 3 = Z.shiftr v 3 ->
          fst (result T' (getBusVoltage_raw self') s')
            = fst (result T (getBusVoltage_raw self) s)).
Proof.
  intros T s self v Hv Hr.
  assert (forall (U : Transport) (u : t_state U) (o : INA220) (w : Z),
             0 <= w < 65536 ->
             reply_data (fst (t_step U (OpRead INA220_REG_BUSVOLTAGE) u)) = w ->
             fst (result U (getBusVoltage_raw o) u) = to_int16 (Z.shiftr w 3 * 4))
    as Hgen.
  { intros U u o w Hw Hd; unfold result.
    rewrite run_getBusVoltage_raw.
    destruct (t_step U (OpRead INA220_REG_BUSVOLTAGE) u) as [r u1]; cbn in *.
    rewrite Hd, u16_small by exact Hw; reflexivity. }
  split.
  - apply Hgen; assumption.
  - intros T' s' self' v' Hv' Hr' Heq.
    rewrite (Hgen T' s' self' v' Hv' Hr'), (Hgen T s self v Hv Hr), Heq.
    reflexivity.
Qed.

Lemma getBusVoltage_raw_drops_status_bits_witness :
  fst (result scripted (getBusVoltage_raw zero_storage) [ack 0x1F43]) = 4000.
Proof.
  exact (proj1 (getBusVoltage_raw_drops_status_bits
                  scripted [ack 0x1F43] zero_storage 0x1F43
                  ltac:(lia) eq_refl)).
Defined.

(** C9: for every answer to the bus-voltage read, [getBusVoltage_raw]
    returns a multiple of 4 between 0 and 32764: the shifted word is at
    most 8191, so the conversion to [int16_t] never wraps. *)
Theorem getBusVoltage_raw_range :
  forall (T : Transport) (s : t_state T) (self : INA220),
    let v := u16 (reply_data (fst (t_step T (OpRead INA220_REG_BUSVOLTAGE) s))) in
    let raw := fst (result T (getBusVoltage_raw self) s) in
    0 <= Z.shiftr v 3 <= 8191
    /\ raw = Z.shiftr v 3 * 4
    /\ 0 <= raw <= 32764
    /\ raw mod 4 = 0.
Proof.
  intros T s self; cbv zeta; unfold result.
  rewrite run_getBusVoltage_raw.
  destruct (t_step T (OpRead INA220_REG_BUSVOLTAGE) s) as [r s1]; cbn [fst snd].
  pose proof (u16_range (reply_data r)) as Hu.
  pose proof (shiftr3_bound _ Hu) as Hs.
  rewrite (bus_voltage_word _ Hu).
  repeat split; try lia.
  apply Z.mod_mul; lia.
Qed.

(** ** Calibration profiles *)

Lemma run_setCalibration_ATDev_32V_2A (hdr : config_encoding) :
  selects_profile hdr (setCalibration_ATDev_32V_2A hdr)
    32000 (F32.lit 3125 1000) (F32.lit 64 10)
    (INA220_CONFIG_BVOLTAGERANGE_32V hdr) (INA220_CONFIG_GAIN_1_40MV hdr).
Proof. intros T s self; unfold config_word; cbn; step_bus; reflexivity. Qed.

Lemma run_setCalibration_32V_2A (hdr : config_encoding) :
  selects_profile hdr (setCalibration_32V_2A hdr)
    4096 (F32.of_Z 10) (F32.of_Z 2)
    (INA220_CONFIG_BVOLTAGERANGE_32V hdr) (INA220_CONFIG_GAIN_8_320MV hdr).
Proof. intros T s self; unfold config_word; cbn; step_bus; reflexivity. Qed.

Lemma run_setCalibration_32V_1A (hdr : config_encoding) :
  selects_profile hdr (setCalibration_32V_1A hdr)
    10240 (F32.of_Z 25) (F32.lit 8 10)
    (INA220_CONFIG_BVOLTAGERANGE_32V hdr) (INA220_CONFIG_GAIN_8_320MV hdr).
Proof. intros T s self; unfold config_word; cbn; step_bus; reflexivity. Qed.

Lemma run_setCalibration_16V_400mA (hdr : config_encoding) :
  selects_profile hdr (setCalibration_16V_400mA hdr)
    8192 (F32.of_Z 20) (F32.lit 10 10)
    (INA220_CONFIG_BVOLTAGERANGE_16V hdr) (INA220_CONFIG_GAIN_1_40MV hdr).
Proof. intros T s self; unfold config_word; cbn; step_bus; reflexivity. Qed.

(** Consequences of [selects_profile], stated once for all profiles. *)
Section Selected.

Variables (hdr : config_encoding) (op : INA220 -> Bus INA220).
Variables (cal : Z) (divider multiplier : F32.t) (range gain : Z).
Hypothesis Hop : selects_profile hdr op cal divider multiplier range gain.

Lemma selected_issued (T : Transport) (s : t_state T) (self : INA220) :
  issued (transactions T (op self) s) =
    [OpWrite INA220_REG_CALIBRATION cal;
     OpWrite INA220_REG_CONFIG (config_word hdr range gain)].
Proof.
  unfold transactions; rewrite Hop; cbv zeta.
  destruct (t_step T _ s) as [r1 s1].
  destruct (t_step T _ s1) as [r2 s2]; reflexivity.
Qed.

Lemma selected_members (T : Transport) (s : t_state T) (self : INA220) :
  INA220_calValue (result T (op self) s) = cal
  /\ INA220_currentDivider_mA (result T (op self) s) = divider
  /\ INA220_powerMultiplier_mW (result T (op self) s) = multiplier.
Proof.
  unfold result; rewrite Hop; cbv zeta.
  destruct (t_step T _ s) as [r1 s1].
  destruct (t_step T _ s1) as [r2 s2]; repeat split.
Qed.

Lemma selected_reports_final_only : reports_final_only op.
Proof.
  intros T s self; unfold transactions, result, success; rewrite Hop; cbv zeta.
  destruct (t_step T _ s) as [r1 s1].
  destruct (t_step T _ s1) as [r2 s2].
  do 4 eexists; split; reflexivity.
Qed.


Lemma selected_fixed_constants : fixed_constants op.
Proof.
  intros T1 s1 self1 T2 s2 self2; cbv zeta.
  destruct (selected_members T1 s1 self1) as (-> & -> & ->).
  destruct (selected_members T2 s2 self2) as (-> & -> & ->).
  rewrite !selected_issued; repeat split.
Qed.

Lemma selected_writes_row (is_divider is_multiplier : F32.t -> bool) :
  is_divider divider = true ->
  is_multiplier multiplier = true ->
  writes_row hdr op cal is_divider is_multiplier range gain.
Proof.
  intros Hd Hm T s self; split.
  - apply selected_issued.
  - destruct (selected_members T s self) as (Hc & Hdiv & Hmul).
    unfold holds_row; rewrite Hc, Hdiv, Hmul; repeat split; assumption.
Qed.

End Selected.

(** C5: each profile selection writes its row of the calibration table.
    The alternate 32V/2A profile is [setCalibration_ATDev_32V_2A] (32000,
    3.125, 6.4, 32V, gain 1), the one the table calls default is
    [setCalibration_32V_2A] (4096, 10, 2, 32V, gain 8), then 32V/1A (10240,
    25, 0.8, 32V, gain 8) and 16V/400mA (8192, 20, 1.0, 16V, gain 1).  The
    calibration value goes to register 0x05, then the configuration word,
    which is the bitwise or of range, gain, 12-bit bus ADC, 12-bit 1-sample
    532us shunt ADC and continuous shunt-and-bus mode, goes to register
    0x00; the scalars kept are the binary32 values of the decimals. *)
Theorem calibration_profiles_match_table :
  forall hdr : config_encoding,
    writes_row hdr (setCalibration_ATDev_32V_2A hdr)
      32000 (F32.exactly 3125 1000) (F32.rounds 64 10)
      (INA220_CONFIG_BVOLTAGERANGE_32V hdr) (INA220_CONFIG_GAIN_1_40MV hdr)
    /\ writes_row hdr (setCalibration_32V_2A hdr)
      4096 (F32.exactly 10 1) (F32.exactly 2 1)
      (INA220_CONFIG_BVOLTAGERANGE_32V hdr) (INA220_CONFIG_GAIN_8_320MV hdr)
    /\ writes_row hdr (setCalibration_32V_1A hdr)
      10240 (F32.exactly 25 1) (F32.rounds 8 10)
      (INA220_CONFIG_BVOLTAGERANGE_32V hdr) (INA220_CONFIG_GAIN_8_320MV hdr)
    /\ writes_row hdr (setCalibration_16V_400mA hdr)
      8192 (F32.exactly 20 1) (F32.exactly 1 1)
      (INA220_CONFIG_BVOLTAGERANGE_16V hdr) (INA220_CONFIG_GAIN_1_40MV hdr).
Proof.
  intro hdr; split; [| split; [| split]].
  - exact (selected_writes_row _ _ _ _ _ _ _ (run_setCalibration_ATDev_32V_2A hdr)
             _ _ eq_refl eq_refl).
  - exact (selected_writes_row _ _ _ _ _ _ _ (run_setCalibration_32V_2A hdr)
             _ _ eq_refl eq_refl).
  - exact (selected_writes_row _ _ _ _ _ _ _ (run_setCalibration_32V_1A hdr)
             _ _ eq_refl eq_refl).
  - exact (selected_writes_row _ _ _ _ _ _ _ (run_setCalibration_16V_400mA hdr)
             _ _ eq_refl eq_refl).
Qed.

(** With the chip's field layout the four configuration words are 0x219F,
    0x399F, 0x399F and 0x019F. *)
Example datasheet_config_words :
  map (fun op => issued (transactions scripted (op zero_storage) []))
      (calibration_selectors datasheet_encoding)
  = [ [OpWrite 0x05 32000; OpWrite 0x00 0x219F];
      [OpWrite 0x05 4096;  OpWrite 0x00 0x399F];
      [OpWrite 0x05 10240; OpWrite 0x00 0x399F];
      [OpWrite 0x05 8192;  OpWrite 0x00 0x019F] ].
Proof. reflexivity. Qed.

(** ** The success flag *)

Lemma getCurrent_raw_reports_final_only :
  reports_final_only (fun self => object_after (getCurrent_raw self)).
Proof.
  intros T s self; unfold transactions, result, success, object_after.
  rewrite run_bind, run_getCurrent_raw; cbv zeta.
  destruct (t_step T _ s) as [r1 s1].
  destruct (t_step T _ s1) as [r2 s2]; cbn.
  do 4 eexists; split; reflexivity.
Qed.

Lemma getPower_raw_reports_final_only :
  reports_final_only (fun self => object_after (getPower_raw self)).
Proof.
  intros T s self; unfold transactions, result, success, object_after.
  rewrite run_bind, run_getPower_raw; cbv zeta.
  destruct (t_step T _ s) as [r1 s1].
  destruct (t_step T _ s1) as [r2 s2]; cbn.
  do 4 eexists; split; reflexivity.
Qed.

(** C4: every multi-step operation (the calibration selections,
    [getCurrent_raw], [getPower_raw]) performs two transactions and leaves
    in the success flag the outcome of the second one only: with a failed
    first write and a successful final step [success] is true, with a
    failed final step it is false. *)
Theorem success_reflects_final_transaction :
  forall hdr : config_encoding,
    Forall (fun op => reports_final_only op /\ collapses_errors op)
      (multi_step_operations hdr).
Proof.
  intro hdr; unfold multi_step_operations, calibration_selectors; cbn [app].
  repeat apply Forall_cons; try apply Forall_nil;
    (split; [| intros self v1 v2; split; reflexivity]).
  - exact (selected_reports_final_only _ _ _ _ _ _ _
             (run_setCalibration_ATDev_32V_2A hdr)).
  - exact (selected_reports_final_only _ _ _ _ _ _ _
             (run_setCalibration_32V_2A hdr)).
  - exact (selected_reports_final_only _ _ _ _ _ _ _
             (run_setCalibration_32V_1A hdr)).
  - exact (selected_reports_final_only _ _ _ _ _ _ _
             (run_setCalibration_16V_400mA hdr)).
  - exact getCurrent_raw_reports_final_only.
  - exact getPower_raw_reports_final_only.
Qed.

(** ** Initialisation *)

Lemma run_begin (hdr : config_encoding) (T : Transport) (s : t_state T)
    (self : INA220) :
  run T (begin hdr self) s =
    let self0 := if i2c_dev self then self else set_i2c_dev true self in
    let (r, s1) := t_step T (OpProbe (INA220_i2caddr self)) s in
    if reply_ok r then
      let '(self1, s2, tr) := run T (setCalibration_ATDev_32V_2A hdr self0) s1 in
      (true, self1, s2, (OpProbe (INA220_i2caddr self), r) :: tr)
    else (false, self0, s1, [(OpProbe (INA220_i2caddr self), r)]).
Proof.
  unfold begin, init; cbv zeta.
  replace (INA220_i2caddr (if i2c_dev self then self else set_i2c_dev true self))
    with (INA220_i2caddr self) by (destruct (i2c_dev self); reflexivity).
  cbn [run].
  destruct (t_step T (OpProbe (INA220_i2caddr self)) s) as [r s1].
  destruct (reply_ok r); cbn [negb]; [| reflexivity].
  rewrite run_bind.
  destruct (run T (setCalibration_ATDev_32V_2A hdr _) s1) as [[self1 s2] tr].
  cbn; rewrite app_nil_r; reflexivity.
Qed.

(** C1, as the code has it: when [begin] succeeds the controller has
    applied the profile of [setCalibration_ATDev_32V_2A] (the alternate
    32V/2A row: calibration value 32000, current divisor 3.125, power
    multiplier 6.4); after the probe, that calibration value and the
    configuration word for 32V range and gain 1 were written. *)
Theorem begin_applies_ATDev_32V_2A :
  forall (hdr : config_encoding) (T : Transport) (s : t_state T) (self : INA220),
    fst (result T (begin hdr self) s) = true ->
    holds_row (snd (result T (begin hdr self) s))
      32000 (F32.exactly 3125 1000) (F32.rounds 64 10)
    /\ issued (transactions T (begin hdr self) s) =
         [OpProbe (INA220_i2caddr self);
          OpWrite 0x05 32000;
          OpWrite 0x00 (config_word hdr (INA220_CONFIG_BVOLTAGERANGE_32V hdr)
                                        (INA220_CONFIG_GAIN_1_40MV hdr))].
Proof.
  intros hdr T s self; unfold result, transactions.
  rewrite run_begin; cbv zeta.
  destruct (t_step T (OpProbe (INA220_i2caddr self)) s) as [r s1].
  destruct (reply_ok r); [| discriminate].
  rewrite run_setCalibration_ATDev_32V_2A; cbv zeta.
  destruct (t_step T _ s1) as [r1 s2].
  destruct (t_step T _ s2) as [r2 s3]; cbn.
  intros _; repeat split.
Qed.

Lemma begin_applies_ATDev_32V_2A_witness :
  fst (result scripted
         (begin datasheet_encoding (ATDev_INA220 zero_storage 0x40))
         [ack 0; ack 0; ack 0]) = true
  /\ issued (transactions scripted
         (begin datasheet_encoding (ATDev_INA220 zero_storage 0x40))
         [ack 0; ack 0; ack 0])
     = [OpProbe 0x40; OpWrite 0x05 32000; OpWrite 0x00 0x219F].
Proof.
  split.
  - reflexivity.
  - exact (proj2 (begin_applies_ATDev_32V_2A datasheet_encoding scripted
                    [ack 0; ack 0; ack 0] (ATDev_INA220 zero_storage 0x40)
                    eq_refl)).
Defined.

(** C1, as the claim has it, fails: after a successful [begin] the object
    does not hold the row 4096, 10, 2; it holds 32000 and scalars that are
    neither 10 nor 2. *)
Lemma begin_applies_table_default_counterexample :
  fst (result scripted
         (begin datasheet_encoding (ATDev_INA220 zero_storage 0x40))
         [ack 0; ack 0; ack 0]) = true
  /\ ~ holds_row
         (snd (result scripted
                 (begin datasheet_encoding (ATDev_INA220 zero_storage 0x40))
                 [ack 0; ack 0; ack 0]))
         4096 (F32.exactly 10 1) (F32.exactly 2 1)
  /\ INA220_calValue
        (snd (result scripted
                (begin datasheet_encoding (ATDev_INA220 zero_storage 0x40))
                [ack 0; ack 0; ack 0])) = 32000
  /\ F32.exactly 10 1
        (INA220_currentDivider_mA
           (snd (result scripted
                   (begin datasheet_encoding (ATDev_INA220 zero_storage 0x40))
                   [ack 0; ack 0; ack 0]))) = false
  /\ F32.exactly 2 1
        (INA220_powerMultiplier_mW
           (snd (result scripted
                   (begin datasheet_encoding (ATDev_INA220 zero_storage 0x40))
                   [ack 0; ack 0; ack 0]))) = false.
Proof.
  split; [reflexivity |].
  split; [| repeat split].
  intros (Hcal & _); vm_compute in Hcal; discriminate.
Qed.

(** ** The set of profiles *)

(** C2, as the code has it: there are four calibration-selection
    operations; on any object and transport they leave four different
    calibration values, so they are pairwise distinct; and what each one
    stores and writes is fixed, independent of the object it starts from
    and of the transport's answers. *)
Theorem four_fixed_calibration_profiles :
  forall hdr : config_encoding,
    length (calibration_selectors hdr) = 4%nat
    /\ (forall (T : Transport) (s : t_state T) (self : INA220),
          NoDup (map (fun op => INA220_calValue (result T (op self) s))
                   (calibration_selectors hdr)))
    /\ Forall fixed_constants (calibration_selectors hdr).
Proof.
  intro hdr; split; [reflexivity | split].
  - intros T s self; unfold calibration_selectors; cbn [map].
    rewrite (proj1 (selected_members _ _ _ _ _ _ _
                      (run_setCalibration_ATDev_32V_2A hdr) T s self)).
    rewrite (proj1 (selected_members _ _ _ _ _ _ _
                      (run_setCalibration_32V_2A hdr) T s self)).
    rewrite (proj1 (selected_members _ _ _ _ _ _ _
                      (run_setCalibration_32V_1A hdr) T s self)).
    rewrite (proj1 (selected_members _ _ _ _ _ _ _
                      (run_setCalibration_16V_400mA hdr) T s self)).
    repeat constructor; cbn; intuition discriminate.
  - unfold calibration_selectors; repeat apply Forall_cons; try apply Forall_nil.
    + exact (selected_fixed_constants _ _ _ _ _ _ _
               (run_setCalibration_ATDev_32V_2A hdr)).
    + exact (selected_fixed_constants _ _ _ _ _ _ _
               (run_setCalibration_32V_2A hdr)).
    + exact (selected_fixed_constants _ _ _ _ _ _ _
               (run_setCalibration_32V_1A hdr)).
    + exact (selected_fixed_constants _ _ _ _ _ _ _
               (run_setCalibration_16V_400mA hdr)).
Qed.

(** C2, as the claim has it, fails: the operations are not five. *)
Lemma five_calibration_profiles_counterexample :
  length (calibration_selectors datasheet_encoding) <> 5%nat.
Proof. cbn; discriminate. Qed.

(** ** Power save *)

Lemma run_powerSave (hdr : config_encoding) (on : bool) (T : Transport)
    (s : t_state T) (self : INA220) :
  run T (powerSave hdr on self) s =
    let code := if on then INA220_CONFIG_MODE_POWERDOWN hdr
                else INA220_CONFIG_MODE_SANDBVOLT_CONTINUOUS hdr in
    let w := OpWrite INA220_REG_CONFIG (Z.shiftl (Z.land code (Z.ones 3)) 0) in
    let (r, s1) := t_step T w s in
    (set_success (reply_ok r) self, s1, [(w, r)]).
Proof. destruct on; cbn; step_bus; reflexivity. Qed.

Lemma mode_field (code : Z) :
  0 <= code < 8 ->
  Z.shiftl (Z.land code (Z.ones 3)) 0 = code.
Proof.
  intro H.
  rewrite Z.shiftl_0_r, Z.land_ones by lia.
  apply Z.mod_small; exact H.
Qed.

Lemma above_mode_field (code : Z) :
  0 <= code < 8 ->
  Z.shiftr code 3 = 0 /\ forall n : Z, 3 <= n -> Z.testbit code n = false.
Proof.
  intro H.
  assert (Z.shiftr code 3 = 0) as Hs.
  { rewrite Z.shiftr_div_pow2 by lia; apply Z.div_small; exact H. }
  split; [exact Hs |].
  intros n Hn.
  replace n with (n - 3 + 3) by lia.
  rewrite <- Z.shiftr_spec by lia.
  rewrite Hs; apply Z.bits_0.
Qed.

(** C7: on a device that stores what is written, [powerSave on] leaves in
    the configuration register the power-down code (on) or the continuous
    shunt-and-bus code (off) in bits 2-0 and zero in every other bit,
    whatever the register held before; the other registers are untouched
    and the only transaction is that one write. *)
Theorem powerSave_overwrites_configuration :
  forall (hdr : config_encoding) (on : bool) (self : INA220)
         (regs : t_state echo_device),
    0 <= INA220_CONFIG_MODE_POWERDOWN hdr < 8 ->
    0 <= INA220_CONFIG_MODE_SANDBVOLT_CONTINUOUS hdr < 8 ->
    let code := if on then INA220_CONFIG_MODE_POWERDOWN hdr
                else INA220_CONFIG_MODE_SANDBVOLT_CONTINUOUS hdr in
    let regs' := final_state echo_device (powerSave hdr on self) regs in
    regs' INA220_REG_CONFIG = code
    /\ Z.land (regs' INA220_REG_CONFIG) 7 = code
    /\ (forall n : Z, 3 <= n -> Z.testbit (regs' INA220_REG_CONFIG) n = false)
    /\ (forall r : Z, r <> INA220_REG_CONFIG -> regs' r = regs r)
    /\ (forall (T : Transport) (s : t_state T),
          issued (transactions T (powerSave hdr on self) s)
            = [OpWrite INA220_REG_CONFIG code]).
Proof.
  intros hdr on self regs Hdown Hcont code regs'.
  assert (0 <= code < 8) as Hcode by (subst code; destruct on; assumption).
  assert (forall r : Z,
             regs' r = if r =? INA220_REG_CONFIG then code else regs r) as Hregs.
  { intro r; subst regs'; unfold final_state.
    rewrite run_powerSave; cbv zeta; fold code.
    rewrite (mode_field code Hcode); cbn.
    rewrite u16_small by lia; reflexivity. }
  assert (regs' INA220_REG_CONFIG = code) as Hcfg
    by (rewrite Hregs, Z.eqb_refl; reflexivity).
  split; [exact Hcfg |].
  rewrite Hcfg.
  split; [| split; [| split]].
  - change 7 with (Z.ones 3); rewrite Z.land_ones by lia.
    apply Z.mod_small; exact Hcode.
  - apply above_mode_field; exact Hcode.
  - intros r Hr; rewrite Hregs.
    destruct (r =? INA220_REG_CONFIG) eqn:E;
      [apply Z.eqb_eq in E; contradiction | reflexivity].
  - intros T s; unfold transactions.
    rewrite run_powerSave; cbv zeta; fold code.
    rewrite (mode_field code Hcode).
    destruct (t_step T _ s) as [r1 s1]; reflexivity.
Qed.

Lemma powerSave_overwrites_configuration_witness :
  final_state echo_device (powerSave datasheet_encoding true zero_storage)
    (fun _ => 0xFFFF) INA220_REG_CONFIG = 0
  /\ final_state echo_device (powerSave datasheet_encoding false zero_storage)
    (fun _ => 0xFFFF) INA220_REG_CONFIG = 7.
Proof.
  split.
  - exact (proj1 (powerSave_overwrites_configuration datasheet_encoding true
                    zero_storage (fun _ => 0xFFFF)
                    ltac:(cbn; lia) ltac:(cbn; lia))).
  - exact (proj1 (powerSave_overwrites_configuration datasheet_encoding false
                    zero_storage (fun _ => 0xFFFF)
                    ltac:(cbn; lia) ltac:(cbn; lia))).
Defined.

(** ** Unit conversions *)

Lemma run_getCurrent_mA (T : Transport) (s : t_state T) (self : INA220) :
  run T (getCurrent_mA self) s =
    let '(raw, self1, s1, tr) := run T (getCurrent_raw self) s in
    (F32.div (F32.of_Z raw) (INA220_currentDivider_mA self), self1, s1, tr).
Proof.
  unfold getCurrent_mA; rewrite run_bind, run_getCurrent_raw; cbv zeta.
  destruct (t_step T _ s) as [r1 s1].
  destruct (t_step T _ s1) as [r2 s2]; reflexivity.
Qed.

Lemma run_getPower_mW (T : Transport) (s : t_state T) (self : INA220) :
  run T (getPower_mW self) s =
    let '(raw, self1, s1, tr) := run T (getPower_raw self) s in
    (F32.mul (F32.of_Z raw) (INA220_powerMultiplier_mW self), self1, s1, tr).
Proof.
  unfold getPower_mW; rewrite run_bind, run_getPower_raw; cbv zeta.
  destruct (t_step T _ s) as [r1 s1].
  destruct (t_step T _ s1) as [r2 s2]; reflexivity.
Qed.

Lemma getCurrent_mA_divides (T : Transport) (s : t_state T) (self : INA220) :
  fst (result T (getCurrent_mA self) s) =
    F32.div (F32.of_Z (fst (result T (getCurrent_raw self) s)))
            (INA220_currentDivider_mA self).
Proof.
  unfold result; rewrite run_getCurrent_mA.
  destruct (run T (getCurrent_raw self) s) as [[[raw self1] s1] tr]; reflexivity.
Qed.

Lemma getPower_mW_multiplies (T : Transport) (s : t_state T) (self : INA220) :
  fst (result T (getPower_mW self) s) =
    F32.mul (F32.of_Z (fst (result T (getPower_raw self) s)))
            (INA220_powerMultiplier_mW self).
Proof.
  unfold result; rewrite run_getPower_mW.
  destruct (run T (getPower_raw self) s) as [[[raw self1] s1] tr]; reflexivity.
Qed.

(** C8: [getCurrent_mA] is the raw current reading divided by the stored
    divisor and [getPower_mW] the raw power reading times the stored
    multiplier, in binary32.  Once [setCalibration_32V_1A] has run, a raw
    current of 100 gives exactly 4.0 and a raw power of 50 gives exactly
    40.0. *)
Theorem conversions_use_profile_scalars :
  forall (hdr : config_encoding)
         (T0 : Transport) (s0 : t_state T0) (self0 : INA220)
         (T : Transport) (s : t_state T),
    let self := result T0 (setCalibration_32V_1A hdr self0) s0 in
    (forall o : INA220,
        fst (result T (getCurrent_mA o) s) =
          F32.div (F32.of_Z (fst (result T (getCurrent_raw o) s)))
                  (INA220_currentDivider_mA o))
    /\ (forall o : INA220,
        fst (result T (getPower_mW o) s) =
          F32.mul (F32.of_Z (fst (result T (getPower_raw o) s)))
                  (INA220_powerMultiplier_mW o))
    /\ (fst (result T (getCurrent_raw self) s) = 100 ->
        F32.exactly 4 1 (fst (result T (getCurrent_mA self) s)) = true)
    /\ (fst (result T (getPower_raw self) s) = 50 ->
        F32.exactly 40 1 (fst (result T (getPower_mW self) s)) = true).
Proof.
  intros hdr T0 s0 self0 T s self.
  destruct (selected_members _ _ _ _ _ _ _ (run_setCalibration_32V_1A hdr)
              T0 s0 self0) as (_ & Hdiv & Hmul).
  fold self in Hdiv, Hmul.
  split; [intro o; apply getCurrent_mA_divides |].
  split; [intro o; apply getPower_mW_multiplies |].
  split; intro Hraw.
  - rewrite getCurrent_mA_divides, Hraw, Hdiv; reflexivity.
  - rewrite getPower_mW_multiplies, Hraw, Hmul; reflexivity.
Qed.

Lemma conversions_use_profile_scalars_witness :
  F32.exactly 4 1
    (fst (result scripted
            (getCurrent_mA
               (result scripted
                  (setCalibration_32V_1A datasheet_encoding zero_storage)
                  [ack 0; ack 0]))
            [ack 0; ack 100])) = true
  /\ F32.exactly 40 1
    (fst (result scripted
            (getPower_mW
               (result scripted
                  (setCalibration_32V_1A datasheet_encoding zero_storage)
                  [ack 0; ack 0]))
            [ack 0; ack 50])) = true.
Proof.
  split.
  - exact (proj1 (proj2 (proj2
             (conversions_use_profile_scalars datasheet_encoding
                scripted [ack 0; ack 0] zero_storage
                scripted [ack 0; ack 100]))) eq_refl).
  - exact (proj2 (proj2 (proj2
             (conversions_use_profile_scalars datasheet_encoding
                scripted [ack 0; ack 0] zero_storage
                scripted [ack 0; ack 50]))) eq_refl).
Defined.

(** ** Before any profile is selected *)

Lemma forall_pos_sound (n : nat) :
  forall f : positive -> bool,
    forall_pos n f = true ->
    forall p : positive, Z.pos p < 2 ^ Z.of_nat (S n) -> f p = true.
Proof.
  induction n as [| n IH]; intros f Hall p Hp.
  - cbn in Hall; apply andb_true_iff in Hall; destruct Hall as [H1 _].
    change (2 ^ Z.of_nat 1) with 2 in Hp.
    destruct p; try lia; exact H1.
  - cbn [forall_pos] in Hall.
    apply andb_true_iff in Hall; destruct Hall as [H1 Hall].
    apply andb_true_iff in Hall; destruct Hall as [HO HI].
    rewrite Nat2Z.inj_succ, Z.pow_succ_r in Hp by lia.
    destruct p as [q | q |].
    + apply (IH (fun q => f (xI q)) HI); lia.
    + apply (IH (fun q => f (xO q)) HO); lia.
    + exact H1.
Qed.

(** Every [int16_t] converts to a finite float. *)
Lemma of_Z_int16_finite (z : Z) :
  -32768 <= z <= 32767 -> F32.is_finite (F32.of_Z z) = true.
Proof.
  intro H; destruct z as [| p | p].
  - reflexivity.
  - apply (forall_pos_sound 15 (fun p => F32.is_finite (F32.of_Z (Z.pos p))));
      [vm_compute; reflexivity | change (2 ^ Z.of_nat 16) with 65536; lia].
  - apply (forall_pos_sound 15 (fun p => F32.is_finite (F32.of_Z (Z.neg p))));
      [vm_compute; reflexivity | change (2 ^ Z.of_nat 16) with 65536; lia].
Qed.

Lemma div_by_zero_not_finite (x : F32.t) :
  F32.is_finite (F32.div x F32.zero) = false.
Proof. destruct x as [sx | sx | | sx m e]; reflexivity. Qed.

Lemma mul_by_zero_is_zero (x : F32.t) :
  F32.is_finite x = true -> F32.is_zero (F32.mul x F32.zero) = true.
Proof. destruct x as [sx | sx | | sx m e]; intro H; try discriminate; reflexivity. Qed.

Lemma getPower_raw_range (T : Transport) (s : t_state T) (self : INA220) :
  -32768 <= fst (result T (getPower_raw self) s) <= 32767.
Proof.
  unfold result; rewrite run_getPower_raw; cbv zeta.
  destruct (t_step T _ s) as [r1 s1].
  destruct (t_step T _ s1) as [r2 s2]; cbn [fst].
  apply to_int16_range.
Qed.

(** C10: a freshly constructed controller holds a current divisor of 0 and
    a power multiplier of 0.0.  In that state [getCurrent_mA] divides the
    raw reading by zero, so its result is never a finite number, and
    [getPower_mW] returns zero whatever the raw reading is. *)
Theorem fresh_controller_has_zero_scalars :
  forall (mem : INA220) (addr : Z) (T : Transport) (s : t_state T),
    let self := ATDev_INA220 mem addr in
    INA220_currentDivider_mA self = F32.zero
    /\ INA220_powerMultiplier_mW self = F32.zero
    /\ fst (result T (getCurrent_mA self) s) =
         F32.div (F32.of_Z (fst (result T (getCurrent_raw self) s))) F32.zero
    /\ F32.is_finite (fst (result T (getCurrent_mA self) s)) = false
    /\ F32.is_zero (fst (result T (getPower_mW self) s)) = true.
Proof.
  intros mem addr T s self.
  split; [reflexivity |].
  split; [reflexivity |].
  split; [apply getCurrent_mA_divides |].
  split.
  - rewrite getCurrent_mA_divides; apply div_by_zero_not_finite.
  - rewrite getPower_mW_multiplies.
    apply mul_by_zero_is_zero, of_Z_int16_finite, getPower_raw_range.
Qed.

(** * Further properties *)

(** ** Initialisation, continued *)

(** X1: when [begin] returns false the only transaction was the probe of
    the object's address: nothing was written to the device, and the object
    is as before except that the device handle is now allocated. *)
Theorem begin_failure_writes_nothing :
  forall (hdr : config_encoding) (T : Transport) (s : t_state T) (self : INA220),
    fst (result T (begin hdr self) s) = false ->
    issued (transactions T (begin hdr self) s) = [OpProbe (INA220_i2caddr self)]
    /\ snd (result T (begin hdr self) s) =
         (if i2c_dev self then self else set_i2c_dev true self).
Proof.
  intros hdr T s self; unfold result, transactions.
  rewrite run_begin; cbv zeta.
  destruct (t_step T (OpProbe (INA220_i2caddr self)) s) as [r s1].
  destruct (reply_ok r).
  - destruct (run T (setCalibration_ATDev_32V_2A hdr _) s1) as [[self1 s2] tr].
    cbn; discriminate.
  - cbn; intros _; split; reflexivity.
Qed.

Lemma begin_failure_writes_nothing_witness :
  issued (transactions scripted
            (begin datasheet_encoding (ATDev_INA220 zero_storage 0x40))
            [nack 0; ack 0; ack 0]) = [OpProbe 0x40]
  /\ INA220_calValue
       (snd (result scripted
               (begin datasheet_encoding (ATDev_INA220 zero_storage 0x40))
               [nack 0; ack 0; ack 0])) = 0.
Proof.
  destruct (begin_failure_writes_nothing datasheet_encoding scripted
              [nack 0; ack 0; ack 0] (ATDev_INA220 zero_storage 0x40) eq_refl)
    as [Htr Hobj].
  split; [exact Htr | rewrite Hobj; reflexivity].
Defined.

(** X2: what [begin] returns is the outcome of the probe and nothing else.
    The success flag afterwards is that of the configuration write when
    the probe succeeded and is untouched otherwise, so [begin] returns
    true with [success] false when the calibration and configuration
    writes fail. *)
Theorem begin_returns_probe_outcome :
  forall (hdr : config_encoding) (self : INA220),
    (forall (T : Transport) (s : t_state T),
        fst (result T (begin hdr self) s) =
          reply_ok (fst (t_step T (OpProbe (INA220_i2caddr self)) s))
        /\ success (snd (result T (begin hdr self) s)) =
             if fst (result T (begin hdr self) s)
             then reply_ok (last_reply (transactions T (begin hdr self) s))
             else success self)
    /\ (forall v1 v2 v3 : Z,
          fst (result scripted (begin hdr self) [ack v1; nack v2; nack v3]) = true
          /\ success (snd (result scripted (begin hdr self)
                             [ack v1; nack v2; nack v3])) = false).
Proof.
  intros hdr self; split.
  - intros T s; unfold result, transactions, last_reply.
    rewrite run_begin; cbv zeta.
    destruct (t_step T (OpProbe (INA220_i2caddr self)) s) as [r s1].
    destruct (reply_ok r) eqn:Hr.
    + rewrite run_setCalibration_ATDev_32V_2A; cbv zeta.
      destruct (t_step T _ s1) as [r1 s2].
      destruct (t_step T _ s2) as [r2 s3]; cbn.
      rewrite Hr; split; reflexivity.
    + cbn; rewrite Hr; split; [reflexivity |].
      destruct (i2c_dev self); reflexivity.
  - intros v1 v2 v3; split; reflexivity.
Qed.

(** ** What the operations leave alone *)

Lemma run_getShuntVoltage_raw (T : Transport) (s : t_state T) (self : INA220) :
  run T (getShuntVoltage_raw self) s =
    let (r, s1) := t_step T (OpRead INA220_REG_SHUNTVOLTAGE) s in
    (to_int16 (u16 (reply_data r)), set_success (reply_ok r) self, s1,
     [(OpRead INA220_REG_SHUNTVOLTAGE, r)]).
Proof. cbn; step_bus; reflexivity. Qed.

Lemma run_getShuntVoltage_mV (dbl : float_format) (T : Transport)
    (s : t_state T) (self : INA220) :
  run T (getShuntVoltage_mV dbl self) s =
    let '(raw, self1, s1, tr) := run T (getShuntVoltage_raw self) s in
    (Double.to_float
       (Double.mul dbl (Double.of_Z dbl raw) (Double.lit dbl 1 100)),
     self1, s1, tr).
Proof.
  unfold getShuntVoltage_mV; rewrite run_bind, run_getShuntVoltage_raw.
  destruct (t_step T _ s) as [r s1]; reflexivity.
Qed.

Lemma run_getBusVoltage_V (dbl : float_format) (T : Transport)
    (s : t_state T) (self : INA220) :
  run T (getBusVoltage_V dbl self) s =
    let '(raw, self1, s1, tr) := run T (getBusVoltage_raw self) s in
    (Double.to_float
       (Double.mul dbl (Double.of_Z dbl raw) (Double.lit dbl 1 1000)),
     self1, s1, tr).
Proof.
  unfold getBusVoltage_V; rewrite run_bind, run_getBusVoltage_raw.
  destruct (t_step T _ s) as [r s1]; reflexivity.
Qed.

(** Running the object-only view of a member function. *)
Lemma run_object_after {A : Type} (T : Transport) (p : Bus (A * INA220))
    (s : t_state T) :
  run T (object_after p) s =
    let '(r, s1, tr) := run T p s in (snd r, s1, tr).
Proof.
  unfold object_after; rewrite run_bind.
  destruct (run T p s) as [[r s1] tr]; cbn; rewrite app_nil_r; reflexivity.
Qed.

Lemma one_read_only_measures {A : Type} (p : INA220 -> Bus (A * INA220))
    (reg : Z) (f : bus_reply -> A) :
  (forall (T : Transport) (s : t_state T) (self : INA220),
      run T (p self) s =
        let (r, s1) := t_step T (OpRead reg) s in
        (f r, set_success (reply_ok r) self, s1, [(OpRead reg, r)])) ->
  only_measures (fun self => object_after (p self)).
Proof.
  intros Hp T s self; unfold result, transactions, issued.
  rewrite run_object_after, Hp.
  destruct (t_step T (OpRead reg) s) as [r s1]; cbn.
  split; [eexists; reflexivity |].
  constructor; [right; eexists; reflexivity | constructor].
Qed.

Lemma reassert_then_read_only_measures {A : Type}
    (p : INA220 -> Bus (A * INA220)) (reg : Z) (f : INA220 -> bus_reply -> A) :
  (forall (T : Transport) (s : t_state T) (self : INA220),
      run T (p self) s =
        let w := OpWrite INA220_REG_CALIBRATION (INA220_calValue self) in
        let (r1, s1) := t_step T w s in
        let (r2, s2) := t_step T (OpRead reg) s1 in
        (f self r2, set_success (reply_ok r2) self, s2,
         [(w, r1); (OpRead reg, r2)])) ->
  only_measures (fun self => object_after (p self)).
Proof.
  intros Hp T s self; unfold result, transactions, issued.
  rewrite run_object_after, Hp; cbv zeta.
  destruct (t_step T _ s) as [r1 s1].
  destruct (t_step T (OpRead reg) s1) as [r2 s2]; cbn.
  split; [eexists; reflexivity |].
  constructor; [left; reflexivity |].
  constructor; [right; eexists; reflexivity | constructor].
Qed.

Lemma measurement_operations_only_measure (dbl : float_format) :
  Forall only_measures (measurement_operations dbl).
Proof.
  unfold measurement_operations; repeat apply Forall_cons; try apply Forall_nil.
  - apply (one_read_only_measures getBusVoltage_raw INA220_REG_BUSVOLTAGE
             (fun r => to_int16 (Z.shiftr (u16 (reply_data r)) 3 * 4))).
    intros T s self; apply run_getBusVoltage_raw.
  - apply (one_read_only_measures getShuntVoltage_raw INA220_REG_SHUNTVOLTAGE
             (fun r => to_int16 (u16 (reply_data r)))).
    intros T s self; apply run_getShuntVoltage_raw.
  - apply (reassert_then_read_only_measures getCurrent_raw INA220_REG_CURRENT
             (fun _ r => to_int16 (u16 (reply_data r)))).
    intros T s self; apply run_getCurrent_raw.
  - apply (reassert_then_read_only_measures getPower_raw INA220_REG_POWER
             (fun _ r => to_int16 (u16 (reply_data r)))).
    intros T s self; apply run_getPower_raw.
  - apply (one_read_only_measures (getShuntVoltage_mV dbl)
             INA220_REG_SHUNTVOLTAGE
             (fun r => Double.to_float
                         (Double.mul dbl
                            (Double.of_Z dbl (to_int16 (u16 (reply_data r))))
                            (Double.lit dbl 1 100)))).
    intros T s self; rewrite run_getShuntVoltage_mV, run_getShuntVoltage_raw.
    destruct (t_step T _ s) as [r s1]; reflexivity.
  - apply (one_read_only_measures (getBusVoltage_V dbl) INA220_REG_BUSVOLTAGE
             (fun r => Double.to_float
                         (Double.mul dbl
                            (Double.of_Z dbl
                               (to_int16 (Z.shiftr (u16 (reply_data r)) 3 * 4)))
                            (Double.lit dbl 1 1000)))).
    intros T s self; rewrite run_getBusVoltage_V, run_getBusVoltage_raw.
    destruct (t_step T _ s) as [r s1]; reflexivity.
  - apply (reassert_then_read_only_measures getCurrent_mA INA220_REG_CURRENT
             (fun self r => F32.div (F32.of_Z (to_int16 (u16 (reply_data r))))
                              (INA220_currentDivider_mA self))).
    intros T s self; rewrite run_getCurrent_mA, run_getCurrent_raw; cbv zeta.
    destruct (t_step T _ s) as [r1 s1].
    destruct (t_step T _ s1) as [r2 s2]; reflexivity.
  - apply (reassert_then_read_only_measures getPower_mW INA220_REG_POWER
             (fun self r => F32.mul (F32.of_Z (to_int16 (u16 (reply_data r))))
                              (INA220_powerMultiplier_mW self))).
    intros T s self; rewrite run_getPower_mW, run_getPower_raw; cbv zeta.
    destruct (t_step T _ s) as [r1 s1].
    destruct (t_step T _ s1) as [r2 s2]; reflexivity.
Qed.

(** A sequence of measurements, by induction on the sequence. *)
Lemma call_in_turn_only_measures (ops : list (INA220 -> Bus INA220)) :
  Forall only_measures ops ->
  forall (T : Transport) (s : t_state T) (self : INA220),
    (exists b : bool,
        result T (call_in_turn ops self) s = set_success b self
        \/ result T (call_in_turn ops self) s = self)
    /\ Forall (reassert_or_read (INA220_calValue self))
         (issued (transactions T (call_in_turn ops self) s)).
Proof.
  induction 1 as [| op ops Hop Hops IH]; intros T s self.
  - cbn; split; [exists true; right; reflexivity | constructor].
  - destruct (Hop T s self) as [[b Hb] Htr].
    unfold result, transactions in *; cbn [call_in_turn].
    rewrite run_bind.
    destruct (run T (op self) s) as [[self1 s1] tr1]; cbn [fst snd] in *.
    subst self1.
    destruct (IH T s1 (set_success b self)) as [[b' Hb'] Htr'].
    destruct (run T (call_in_turn ops (set_success b self)) s1)
      as [[self2 s2] tr2]; cbn [fst snd] in *.
    split.
    + destruct Hb' as [-> | ->]; [exists b' | exists b]; left; reflexivity.
    + unfold issued in *; rewrite map_app; apply Forall_app; split; assumption.
Qed.

(** X3: however many measurements are taken, in whatever order and
    whatever the transport answers, the calibration value and the two
    conversion scalars stay as they were, and nothing goes on the bus but
    reads and writes of the stored calibration value to register 0x05: no
    measurement touches the configuration register. *)
Theorem measurements_keep_profile :
  forall (dbl : float_format) (ops : list (INA220 -> Bus INA220)),
    Forall (fun op => In op (measurement_operations dbl)) ops ->
    forall (T : Transport) (s : t_state T) (self : INA220),
      INA220_calValue (result T (call_in_turn ops self) s)
        = INA220_calValue self
      /\ INA220_currentDivider_mA (result T (call_in_turn ops self) s)
        = INA220_currentDivider_mA self
      /\ INA220_powerMultiplier_mW (result T (call_in_turn ops self) s)
        = INA220_powerMultiplier_mW self
      /\ Forall (reassert_or_read (INA220_calValue self))
           (issued (transactions T (call_in_turn ops self) s)).
Proof.
  intros dbl ops Hin T s self.
  assert (Forall only_measures ops) as Hops.
  { pose proof (measurement_operations_only_measure dbl) as Hall.
    rewrite Forall_forall in Hall, Hin |- *.
    intros op Hop; apply Hall, Hin, Hop. }
  destruct (call_in_turn_only_measures ops Hops T s self) as [[b Hb] Htr].
  repeat split; try exact Htr; destruct Hb as [-> | ->]; reflexivity.
Qed.

Lemma measurements_keep_profile_witness :
  INA220_calValue
    (result scripted
       (call_in_turn
          [ (fun self => object_after (getPower_mW self));
            (fun self => object_after (getBusVoltage_V binary64 self)) ]
          (result scripted
             (setCalibration_32V_1A datasheet_encoding zero_storage) []))
       [nack 0; ack 50; ack 0x1F43]) = 10240.
Proof.
  exact (proj1 (measurements_keep_profile binary64
                  [ (fun self => object_after (getPower_mW self));
                    (fun self => object_after (getBusVoltage_V binary64 self)) ]
                  ltac:(repeat constructor; cbn; tauto)
                  scripted [nack 0; ack 50; ack 0x1F43]
                  (result scripted
                     (setCalibration_32V_1A datasheet_encoding zero_storage) []))).
Defined.

(** ** The bus address and the device handle *)

Lemma only_measures_keeps_binding (op : INA220 -> Bus INA220) :
  only_measures op -> keeps_binding op.
Proof.
  intros Hop T s self.
  destruct (Hop T s self) as [[b ->] _]; split; reflexivity.
Qed.

Lemma selects_profile_keeps_binding (hdr : config_encoding)
    (op : INA220 -> Bus INA220) (cal : Z) (divider multiplier : F32.t)
    (range gain : Z) :
  selects_profile hdr op cal divider multiplier range gain ->
  keeps_binding op.
Proof.
  intros Hop T s self; unfold result; rewrite Hop; cbv zeta.
  destruct (t_step T _ s) as [r1 s1].
  destruct (t_step T _ s1) as [r2 s2]; split; reflexivity.
Qed.

Lemma calibration_selectors_keep_binding (hdr : config_encoding) :
  Forall keeps_binding (calibration_selectors hdr).
Proof.
  unfold calibration_selectors; repeat apply Forall_cons; try apply Forall_nil.
  - exact (selects_profile_keeps_binding _ _ _ _ _ _ _
             (run_setCalibration_ATDev_32V_2A hdr)).
  - exact (selects_profile_keeps_binding _ _ _ _ _ _ _
             (run_setCalibration_32V_2A hdr)).
  - exact (selects_profile_keeps_binding _ _ _ _ _ _ _
             (run_setCalibration_32V_1A hdr)).
  - exact (selects_profile_keeps_binding _ _ _ _ _ _ _
             (run_setCalibration_16V_400mA hdr)).
Qed.

Lemma operations_keep_binding (hdr : config_encoding) (dbl : float_format) :
  Forall keeps_binding (calibration_selectors hdr ++ measurement_operations dbl).
Proof.
  apply Forall_app; split.
  - apply calibration_selectors_keep_binding.
  - pose proof (measurement_operations_only_measure dbl) as H.
    rewrite Forall_forall in H |- *.
    intros op Hop; apply only_measures_keeps_binding, H, Hop.
Qed.

(** X4: the bus address is set by the constructor, to a value that fits
    eight bits, and no profile selection, measurement or [begin] changes
    it; selections and measurements leave the device handle as it is, and
    after [begin], successful or not, the handle is allocated. *)
Theorem address_fixed_at_construction :
  forall (hdr : config_encoding) (dbl : float_format),
    (forall (mem : INA220) (addr : Z),
        0 <= INA220_i2caddr (ATDev_INA220 mem addr) < 256)
    /\ Forall keeps_binding
         (calibration_selectors hdr ++ measurement_operations dbl)
    /\ (forall (T : Transport) (s : t_state T) (self : INA220),
          INA220_i2caddr (snd (result T (begin hdr self) s))
            = INA220_i2caddr self
          /\ i2c_dev (snd (result T (begin hdr self) s)) = true).
Proof.
  intros hdr dbl; split; [| split].
  - intros mem addr; cbn; apply Z.mod_pos_bound; lia.
  - apply operations_keep_binding.
  - intros T s self; unfold result; rewrite run_begin; cbv zeta.
    destruct (t_step T (OpProbe (INA220_i2caddr self)) s) as [r s1].
    destruct (reply_ok r).
    + rewrite run_setCalibration_ATDev_32V_2A; cbv zeta.
      destruct (t_step T _ s1) as [r1 s2].
      destruct (t_step T _ s2) as [r2 s3]; cbn.
      destruct (i2c_dev self) eqn:E; cbn; auto.
    + cbn; destruct (i2c_dev self) eqn:E; cbn; auto.
Qed.

(** ** Selecting again *)

Lemma selects_profile_overrides (hdr : config_encoding)
    (second : INA220 -> Bus INA220) (cal : Z) (divider multiplier : F32.t)
    (range gain : Z) (first : INA220 -> Bus INA220) :
  selects_profile hdr second cal divider multiplier range gain ->
  keeps_binding first ->
  overrides second first.
Proof.
  intros Hsecond Hfirst T s T' s' self.
  destruct (Hfirst T s self) as [Haddr Hdev].
  rewrite !Hsecond; cbv zeta.
  destruct (t_step T' _ s') as [r1 s1].
  destruct (t_step T' _ s1) as [r2 s2].
  do 2 f_equal.
  destruct (result T (first self) s), self; cbn in *; subst; reflexivity.
Qed.

(** X5: a profile selection makes everything done before it irrelevant:
    run after any other selection or any measurement, it issues the same
    transactions, leaves the same object and gets the same answers as when
    run alone; so the last selection wins, and selecting twice is selecting
    once. *)
Theorem last_selection_wins :
  forall (hdr : config_encoding) (dbl : float_format),
    Forall (fun second =>
              Forall (overrides second)
                (calibration_selectors hdr ++ measurement_operations dbl))
      (calibration_selectors hdr).
Proof.
  intros hdr dbl.
  pose proof (operations_keep_binding hdr dbl) as Hkeep.
  assert (forall second cal divider multiplier range gain,
             selects_profile hdr second cal divider multiplier range gain ->
             Forall (overrides second)
               (calibration_selectors hdr ++ measurement_operations dbl))
    as Hall.
  { intros second cal divider multiplier range gain Hsel.
    rewrite Forall_forall in Hkeep |- *.
    intros first Hfirst.
    exact (selects_profile_overrides _ _ _ _ _ _ _ _ Hsel (Hkeep first Hfirst)). }
  apply Forall_cons;
    [exact (Hall _ _ _ _ _ _ (run_setCalibration_ATDev_32V_2A hdr)) |].
  apply Forall_cons;
    [exact (Hall _ _ _ _ _ _ (run_setCalibration_32V_2A hdr)) |].
  apply Forall_cons;
    [exact (Hall _ _ _ _ _ _ (run_setCalibration_32V_1A hdr)) |].
  apply Forall_cons;
    [exact (Hall _ _ _ _ _ _ (run_setCalibration_16V_400mA hdr)) |].
  apply Forall_nil.
Qed.

(** ** Reassertion after a selection *)

Lemma selects_profile_reasserted (hdr : config_encoding)
    (op : INA220 -> Bus INA220) (cal : Z) (divider multiplier : F32.t)
    (range gain : Z) (ops : list (INA220 -> Bus INA220)) :
  selects_profile hdr op cal divider multiplier range gain ->
  Forall only_measures ops ->
  reasserted_after ops op cal.
Proof.
  intros Hop Hops T0 s0 self0 T s.
  pose proof (proj2 (call_in_turn_only_measures ops Hops T s
                       (result T0 (op self0) s0))) as H.
  rewrite (proj1 (selected_members _ _ _ _ _ _ _ Hop T0 s0 self0)) in H.
  exact H.
Qed.

(** X6: once a profile has been selected, every measurement taken
    afterwards, in any number and order, sends that profile's calibration
    value (32000, 4096, 10240 or 8192) to the calibration register and
    otherwise only reads, even when the writes of the selection itself
    failed. *)
Theorem selection_is_reasserted_by_measurements :
  forall (hdr : config_encoding) (dbl : float_format)
         (ops : list (INA220 -> Bus INA220)),
    Forall (fun op => In op (measurement_operations dbl)) ops ->
    Forall2 (reasserted_after ops) (calibration_selectors hdr)
      calibration_values.
Proof.
  intros hdr dbl ops Hin.
  assert (Forall only_measures ops) as Hops.
  { pose proof (measurement_operations_only_measure dbl) as Hall.
    rewrite Forall_forall in Hall, Hin |- *.
    intros op Hop; apply Hall, Hin, Hop. }
  unfold calibration_selectors, calibration_values.
  repeat apply Forall2_cons; try apply Forall2_nil.
  - exact (selects_profile_reasserted _ _ _ _ _ _ _ _
             (run_setCalibration_ATDev_32V_2A hdr) Hops).
  - exact (selects_profile_reasserted _ _ _ _ _ _ _ _
             (run_setCalibration_32V_2A hdr) Hops).
  - exact (selects_profile_reasserted _ _ _ _ _ _ _ _
             (run_setCalibration_32V_1A hdr) Hops).
  - exact (selects_profile_reasserted _ _ _ _ _ _ _ _
             (run_setCalibration_16V_400mA hdr) Hops).
Qed.

Lemma selection_is_reasserted_by_measurements_witness :
  Forall (reassert_or_read 8192)
    (issued (transactions scripted
               (call_in_turn
                  [ (fun self => object_after (getCurrent_mA self));
                    (fun self => object_after (getShuntVoltage_raw self)) ]
                  (result scripted
                     (setCalibration_16V_400mA datasheet_encoding zero_storage)
                     [nack 0; nack 0]))
               [ack 0; ack 7; ack 9])).
Proof.
  pose proof (selection_is_reasserted_by_measurements datasheet_encoding
                binary64
                [ (fun self => object_after (getCurrent_mA self));
                  (fun self => object_after (getShuntVoltage_raw self)) ]
                ltac:(repeat constructor; cbn; tauto)) as H.
  unfold calibration_selectors, calibration_values in H.
  apply Forall2_cons_iff in H; destruct H as [_ H].
  apply Forall2_cons_iff in H; destruct H as [_ H].
  apply Forall2_cons_iff in H; destruct H as [_ H].
  apply Forall2_cons_iff in H; destruct H as [H _].
  exact (H scripted [nack 0; nack 0] zero_storage scripted [ack 0; ack 7; ack 9]).
Defined.

(** ** Accuracy of the conversions *)

(** Rounding does not look at the sign. *)
Lemma binary_round_aux_opp (prec emax : Z) (sx : bool) (mx ex : Z)
    (lx : location) :
  binary_round_aux prec emax (negb sx) mx ex lx =
    SFopp (binary_round_aux prec emax sx mx ex lx).
Proof.
  unfold binary_round_aux.
  destruct (shr_fexp prec emax mx ex lx) as [mrs' e'].
  destruct (shr_fexp prec emax _ e' loc_Exact) as [mrs'' e''].
  destruct (shr_m mrs'') as [| m | m]; try reflexivity.
  destruct (e'' <=? emax - prec); reflexivity.
Qed.

Lemma of_Z_opp (z : Z) :
  z <> 0 -> F32.of_Z (- z) = SFopp (F32.of_Z z).
Proof.
  intro Hz; unfold F32.of_Z, binary_normalize.
  destruct z as [| p | p]; [contradiction | |]; cbn [Z.opp];
    unfold binary_round;
    destruct (shl_align p 0 _) as [mz ez].
  - apply (binary_round_aux_opp F32.prec F32.emax false).
  - rewrite (binary_round_aux_opp F32.prec F32.emax false).
    destruct (binary_round_aux F32.prec F32.emax false (Z.pos mz) ez loc_Exact)
      as [s | s | | s m e]; cbn; try rewrite Bool.negb_involutive; reflexivity.
Qed.

Lemma div_opp_l (x y : F32.t) :
  F32.div (SFopp x) y = SFopp (F32.div x y).
Proof.
  unfold F32.div, SFdiv.
  destruct x as [sx | sx | | sx mx ex], y as [sy | sy | | sy my ey];
    cbn [SFopp]; try reflexivity;
    try (rewrite <- Bool.negb_xorb_l; reflexivity).
  destruct (SFdiv_core_binary F32.prec F32.emax (Z.pos mx) ex (Z.pos my) ey)
    as [[mz ez] lz].
  rewrite <- Bool.negb_xorb_l; apply binary_round_aux_opp.
Qed.

Lemma within_half_ulps_opp (k num den : Z) (x : F32.t) :
  num <> 0 ->
  within_half_ulps k (- num) den (SFopp x) = within_half_ulps k num den x.
Proof.
  intro Hnum.
  destruct x as [sx | sx | | sx m e]; cbn [SFopp within_half_ulps];
    try reflexivity.
  - f_equal.
    destruct (Z.eqb_spec num 0), (Z.eqb_spec (- num) 0); try reflexivity; lia.
  - f_equal; [f_equal |].
    + destruct sx; cbn [negb Bool.eqb];
        destruct (Z.ltb_spec num 0), (Z.ltb_spec (- num) 0);
        try reflexivity; lia.
    + f_equal; f_equal.
      rewrite <- (Z.abs_opp (den * _ * _ - num * _)).
      f_equal; destruct sx; cbn [negb];
        change (Z.neg m) with (- Z.pos m); ring.
Qed.

(** A check on zero, on -32768 and on the positive half decides a
    property of the quotient for every [int16_t]. *)
Lemma divide_sweep (d : F32.t) (a b : Z) :
  0 < a ->
  forall_int16_half
    (fun z => within_half_ulps 1 (z * a) b (F32.div (F32.of_Z z) d)) = true ->
  forall z : Z,
    -32768 <= z <= 32767 ->
    within_half_ulps 1 (z * a) b (F32.div (F32.of_Z z) d) = true.
Proof.
  intros Ha H z Hz.
  unfold forall_int16_half in H.
  apply andb_true_iff in H; destruct H as [H Hpos].
  apply andb_true_iff in H; destruct H as [H0 Hmin].
  assert (forall p : positive,
             Z.pos p < 32768 ->
             within_half_ulps 1 (Z.pos p * a) b
               (F32.div (F32.of_Z (Z.pos p)) d) = true) as Hp.
  { intros p Hlt.
    apply (forall_pos_sound 14
             (fun p => within_half_ulps 1 (Z.pos p * a) b
                         (F32.div (F32.of_Z (Z.pos p)) d)) Hpos).
    change (2 ^ Z.of_nat 15) with 32768; exact Hlt. }
  destruct z as [| p | p].
  - exact H0.
  - apply Hp; lia.
  - destruct (Z.eq_dec (Z.neg p) (-32768)) as [-> | Hne]; [exact Hmin |].
    change (Z.neg p) with (- Z.pos p).
    rewrite of_Z_opp, div_opp_l, Z.mul_opp_l by lia.
    rewrite within_half_ulps_opp by nia.
    apply Hp; lia.
Qed.

Lemma getCurrent_raw_int16 (T : Transport) (s : t_state T) (self : INA220) :
  -32768 <= fst (result T (getCurrent_raw self) s) <= 32767.
Proof.
  unfold result; rewrite run_getCurrent_raw; cbv zeta.
  destruct (t_step T _ s) as [r1 s1].
  destruct (t_step T _ s1) as [r2 s2]; cbn [fst].
  apply to_int16_range.
Qed.

Lemma divide_by_3125_1000 (z : Z) :
  -32768 <= z <= 32767 ->
  within_half_ulps 1 (z * 1000) 3125
    (F32.div (F32.of_Z z) (F32.lit 3125 1000)) = true.
Proof.
  apply divide_sweep; [lia | vm_cast_no_check (eq_refl true)].
Qed.

Lemma divide_by_10 (z : Z) :
  -32768 <= z <= 32767 ->
  within_half_ulps 1 (z * 1) 10 (F32.div (F32.of_Z z) (F32.of_Z 10)) = true.
Proof.
  apply divide_sweep; [lia | vm_cast_no_check (eq_refl true)].
Qed.

Lemma divide_by_25 (z : Z) :
  -32768 <= z <= 32767 ->
  within_half_ulps 1 (z * 1) 25 (F32.div (F32.of_Z z) (F32.of_Z 25)) = true.
Proof.
  apply divide_sweep; [lia | vm_cast_no_check (eq_refl true)].
Qed.

Lemma divide_by_20 (z : Z) :
  -32768 <= z <= 32767 ->
  within_half_ulps 1 (z * 1) 20 (F32.div (F32.of_Z z) (F32.of_Z 20)) = true.
Proof.
  apply divide_sweep; [lia | vm_cast_no_check (eq_refl true)].
Qed.

(** What [getCurrent_mA] computes once a profile with divider [d] is in. *)
Lemma getCurrent_mA_after (hdr : config_encoding) (op : INA220 -> Bus INA220)
    (cal : Z) (d m : F32.t) (range gain : Z) :
  selects_profile hdr op cal d m range gain ->
  forall (T0 : Transport) (s0 : t_state T0) (self0 : INA220)
         (T : Transport) (s : t_state T),
    fst (result T (getCurrent_mA (result T0 (op self0) s0)) s) =
      F32.div
        (F32.of_Z (fst (result T (getCurrent_raw (result T0 (op self0) s0)) s)))
        d.
Proof.
  intros Hop T0 s0 self0 T s.
  rewrite getCurrent_mA_divides.
  rewrite (proj1 (proj2 (selected_members _ _ _ _ _ _ _ Hop T0 s0 self0))).
  reflexivity.
Qed.

(** X7: once any of the four profiles is selected, [getCurrent_mA] returns,
    for every register word, a finite float with the sign of the raw
    reading and within half a unit in the last place of the raw reading
    divided by 3.125, 10, 25 or 20: the division is never by zero and
    never yields an infinity or a NaN. *)
Theorem current_is_correctly_rounded :
  forall (hdr : config_encoding)
         (T0 : Transport) (s0 : t_state T0) (self0 : INA220)
         (T : Transport) (s : t_state T),
    (let self := result T0 (setCalibration_ATDev_32V_2A hdr self0) s0 in
     within_half_ulps 1 (fst (result T (getCurrent_raw self) s) * 1000) 3125
       (fst (result T (getCurrent_mA self) s)) = true)
    /\ (let self := result T0 (setCalibration_32V_2A hdr self0) s0 in
        within_half_ulps 1 (fst (result T (getCurrent_raw self) s)) 10
          (fst (result T (getCurrent_mA self) s)) = true)
    /\ (let self := result T0 (setCalibration_32V_1A hdr self0) s0 in
        within_half_ulps 1 (fst (result T (getCurrent_raw self) s)) 25
          (fst (result T (getCurrent_mA self) s)) = true)
    /\ (let self := result T0 (setCalibration_16V_400mA hdr self0) s0 in
        within_half_ulps 1 (fst (result T (getCurrent_raw self) s)) 20
          (fst (result T (getCurrent_mA self) s)) = true).
Proof.
  intros hdr T0 s0 self0 T s; cbv zeta.
  rewrite (getCurrent_mA_after _ _ _ _ _ _ _ (run_setCalibration_ATDev_32V_2A hdr)).
  rewrite (getCurrent_mA_after _ _ _ _ _ _ _ (run_setCalibration_32V_2A hdr)).
  rewrite (getCurrent_mA_after _ _ _ _ _ _ _ (run_setCalibration_32V_1A hdr)).
  rewrite (getCurrent_mA_after _ _ _ _ _ _ _ (run_setCalibration_16V_400mA hdr)).
  split; [| split; [| split]].
  - apply divide_by_3125_1000, getCurrent_raw_int16.
  - rewrite <- (Z.mul_1_r (fst _)) at 1.
    apply divide_by_10, getCurrent_raw_int16.
  - rewrite <- (Z.mul_1_r (fst _)) at 1.
    apply divide_by_25, getCurrent_raw_int16.
  - rewrite <- (Z.mul_1_r (fst _)) at 1.
    apply divide_by_20, getCurrent_raw_int16.
Qed.

(** *** Bus voltage in volts *)

Lemma forall_bus_raw_sound (f : Z -> bool) :
  forall_bus_raw f = true ->
  forall k : Z, 0 <= k <= 8191 -> f (k * 4) = true.
Proof.
  unfold forall_bus_raw; intros H k Hk.
  apply andb_true_iff in H; destruct H as [H0 Hpos].
  destruct k as [| p | p]; [exact H0 | | lia].
  apply (forall_pos_sound 12 (fun p => f (Z.pos p * 4)) Hpos).
  change (2 ^ Z.of_nat 13) with 8192; lia.
Qed.

(** The raw bus reading is four times a thirteen-bit number. *)
Lemma getBusVoltage_raw_shape (T : Transport) (s : t_state T) (self : INA220) :
  exists k : Z,
    0 <= k <= 8191 /\ fst (result T (getBusVoltage_raw self) s) = k * 4.
Proof.
  unfold result; rewrite run_getBusVoltage_raw.
  destruct (t_step T _ s) as [r1 s1]; cbn [fst].
  pose proof (u16_range (reply_data r1)) as Hu.
  exists (Z.shiftr (u16 (reply_data r1)) 3); split.
  - apply shiftr3_bound; exact Hu.
  - apply bus_voltage_word; exact Hu.
Qed.

Lemma getBusVoltage_V_scales (dbl : float_format) (T : Transport)
    (s : t_state T) (self : INA220) :
  fst (result T (getBusVoltage_V dbl self) s) =
    Double.to_float
      (Double.mul dbl
         (Double.of_Z dbl (fst (result T (getBusVoltage_raw self) s)))
         (Double.lit dbl 1 1000)).
Proof.
  unfold result; rewrite run_getBusVoltage_V.
  destruct (run T (getBusVoltage_raw self) s) as [[[raw self1] s1] tr].
  reflexivity.
Qed.

Lemma thousandth_binary64 (k : Z) :
  0 <= k <= 8191 ->
  within_half_ulps 1 (k * 4) 1000
    (Double.to_float
       (Double.mul binary64 (Double.of_Z binary64 (k * 4))
          (Double.lit binary64 1 1000)))
  = true.
Proof.
  apply (forall_bus_raw_sound
           (fun z => within_half_ulps 1 z 1000
                       (Double.to_float
                          (Double.mul binary64 (Double.of_Z binary64 z)
                             (Double.lit binary64 1 1000))))).
  vm_cast_no_check (eq_refl true).
Qed.

Lemma thousandth_binary32 (k : Z) :
  0 <= k <= 8191 ->
  within_half_ulps 3 (k * 4) 1000
    (Double.to_float
       (Double.mul binary32 (Double.of_Z binary32 (k * 4))
          (Double.lit binary32 1 1000)))
  = true.
Proof.
  apply (forall_bus_raw_sound
           (fun z => within_half_ulps 3 z 1000
                       (Double.to_float
                          (Double.mul binary32 (Double.of_Z binary32 z)
                             (Double.lit binary32 1 1000))))).
  vm_cast_no_check (eq_refl true).
Qed.

Lemma within_half_ulps_nonneg (k num den : Z) (x : F32.t) :
  within_half_ulps k num den x = true -> 0 <= num -> is_negative x = false.
Proof.
  destruct x as [sx | sx | | [|] m e]; cbn [within_half_ulps is_negative];
    intros H Hnum; try reflexivity.
  apply andb_true_iff in H; destruct H as [H _].
  apply andb_true_iff in H; destruct H as [_ H].
  apply Bool.eqb_prop in H; symmetry in H; apply Z.ltb_lt in H; lia.
Qed.

(** X8: where [double] is binary64, [getBusVoltage_V] returns, for every
    register word, a float that is zero or positive and within half a unit
    in the last place of the raw bus reading divided by 1000: it is never
    negative, infinite or NaN. *)
Theorem bus_voltage_is_correctly_rounded_binary64 :
  forall (T : Transport) (s : t_state T) (self : INA220),
    within_half_ulps 1 (fst (result T (getBusVoltage_raw self) s)) 1000
      (fst (result T (getBusVoltage_V binary64 self) s)) = true
    /\ is_negative (fst (result T (getBusVoltage_V binary64 self) s)) = false.
Proof.
  intros T s self.
  rewrite getBusVoltage_V_scales.
  destruct (getBusVoltage_raw_shape T s self) as (k & Hk & ->).
  pose proof (thousandth_binary64 k Hk) as H.
  split; [exact H |].
  apply (within_half_ulps_nonneg _ _ _ _ H); lia.
Qed.

(** X9: where [double] is a binary32, as with avr-gcc, [getBusVoltage_V]
    stays within one and a half units in the last place of the raw bus
    reading divided by 1000 but does miss the nearest float: a raw
    reading of 20 is off by more than half a unit, one of 92 by more than
    a whole unit. *)
Theorem bus_voltage_loses_accuracy_binary32 :
  forall (T : Transport) (s : t_state T) (self : INA220),
    within_half_ulps 3 (fst (result T (getBusVoltage_raw self) s)) 1000
      (fst (result T (getBusVoltage_V binary32 self) s)) = true
    /\ (fst (result scripted (getBusVoltage_raw self) [ack 40]) = 20
        /\ within_half_ulps 1 20 1000
             (fst (result scripted (getBusVoltage_V binary32 self) [ack 40]))
           = false)
    /\ (fst (result scripted (getBusVoltage_raw self) [ack 184]) = 92
        /\ within_half_ulps 2 92 1000
             (fst (result scripted (getBusVoltage_V binary32 self) [ack 184]))
           = false).
Proof.
  intros T s self.
  rewrite !getBusVoltage_V_scales.
  split.
  - destruct (getBusVoltage_raw_shape T s self) as (k & Hk & ->).
    apply thousandth_binary32; exact Hk.
  - assert (fst (result scripted (getBusVoltage_raw self) [ack 40]) = 20) as H20
      by (unfold result; rewrite run_getBusVoltage_raw; reflexivity).
    assert (fst (result scripted (getBusVoltage_raw self) [ack 184]) = 92) as H92
      by (unfold result; rewrite run_getBusVoltage_raw; reflexivity).
    rewrite H20, H92.
    split; split; try reflexivity; vm_compute; reflexivity.
Qed.

(** ** Verbatim reads *)

Lemma u16_to_int16 (w : Z) : u16 (to_int16 (u16 w)) = u16 w.
Proof.
  pose proof (u16_range w) as Hr.
  unfold to_int16; fold (u16 (u16 w)); rewrite (u16_small (u16 w) Hr).
  destruct (u16 w <? 32768).
  - apply u16_small; exact Hr.
  - unfold u16 at 1.
    replace (u16 w - 65536) with (u16 w + (-1) * 65536) by lia.
    rewrite Z.mod_add by lia.
    apply u16_small; exact Hr.
Qed.

Lemma to_int16_word (w : Z) :
  u16 (to_int16 (u16 w)) = u16 w
  /\ (u16 w < 32768 -> to_int16 (u16 w) = u16 w)
  /\ (32768 <= u16 w -> to_int16 (u16 w) = u16 w - 65536).
Proof.
  pose proof (u16_range w) as Hr.
  split; [apply u16_to_int16 |].
  split; intro H.
  - apply to_int16_small; lia.
  - unfold to_int16; fold (u16 (u16 w)); rewrite (u16_small (u16 w) Hr).
    destruct (Z.ltb_spec (u16 w) 32768); [lia | reflexivity].
Qed.

(** X10: [getShuntVoltage_raw], [getCurrent_raw] and [getPower_raw] hand
    the register word over without loss: the sixteen-bit word that was
    read is recovered from the value returned, which is the word itself
    when bit 15 is clear and the word less 65536, a negative number, when
    it is set; so the power register reads negative in its upper half. *)
Theorem verbatim_reads_are_lossless :
  forall (T : Transport) (s : t_state T) (self : INA220),
    let word := fun p : Bus (Z * INA220) =>
                  u16 (reply_data (last_reply (transactions T p s))) in
    let value := fun p : Bus (Z * INA220) => fst (result T p s) in
    Forall (fun p => u16 (value p) = word p
                     /\ (word p < 32768 -> value p = word p)
                     /\ (32768 <= word p -> value p = word p - 65536))
      [getShuntVoltage_raw self; getCurrent_raw self; getPower_raw self].
Proof.
  intros T s self word value; subst word value; cbv beta.
  repeat (apply Forall_cons; [cbv beta |]); try apply Forall_nil;
    unfold result, transactions, last_reply.
  - rewrite run_getShuntVoltage_raw.
    destruct (t_step T _ s) as [r0 s0]; cbn; apply to_int16_word.
  - rewrite run_getCurrent_raw; cbv zeta.
    destruct (t_step T _ s) as [r1 s1].
    destruct (t_step T _ s1) as [r2 s2]; cbn; apply to_int16_word.
  - rewrite run_getPower_raw; cbv zeta.
    destruct (t_step T _ s) as [r1 s1].
    destruct (t_step T _ s1) as [r2 s2]; cbn; apply to_int16_word.
Qed.

Lemma verbatim_reads_are_lossless_witness :
  fst (result scripted (getShuntVoltage_raw zero_storage) [ack 0x7FFF]) = 0x7FFF
  /\ fst (result scripted (getPower_raw zero_storage) [ack 0; ack 0x8000])
     = -32768.
Proof.
  pose proof (verbatim_reads_are_lossless scripted [ack 0x7FFF] zero_storage)
    as H1.
  pose proof (verbatim_reads_are_lossless scripted [ack 0; ack 0x8000]
                zero_storage) as H2.
  cbv zeta in H1, H2.
  apply Forall_cons_iff in H1; destruct H1 as [(_ & H1 & _) _].
  apply Forall_cons_iff in H2; destruct H2 as [_ H2].
  apply Forall_cons_iff in H2; destruct H2 as [_ H2].
  apply Forall_cons_iff in H2; destruct H2 as [(_ & _ & H2) _].
  split.
  - exact (H1 ltac:(vm_compute; reflexivity)).
  - exact (H2 ltac:(vm_compute; discriminate)).
Defined.
